(** * Pay-lockr: the subscription verification handler (src/index.ts)

    A shallow embedding of the edge function that finalises a subscription
    purchase after the payment gateway redirects back: it verifies the payment
    with the gateway, looks the pending subscription up, resolves or creates
    the user, and writes four records.

    The handler is one straight-line asynchronous function.  It is modelled as
    a function of the request and of a [World] that answers the calls it makes
    (gateway, datastore, authentication service, clock); what it does is
    recorded in a trace of events, and what it returns is the response.  The
    body of its [try] is written here as a sequence of stages, one for each
    commented part of the source, in the order of the source.

    [createClient] (line 39) builds the datastore client from the
    configuration and makes no call; it throws when the configuration is
    missing.  The constant [Content-Type] header of the gateway request is
    not recorded. *)

From Stdlib Require Import String List Bool PrimFloat.
Import ListNotations.
Open Scope string_scope.
Set Warnings "-inexact-float,-register-all".

(** ** JavaScript values *)

(** The values the handler handles: what [JSON.parse] yields, [undefined], and
    the built-in function objects an object literal inherits from
    [Object.prototype] (named by the member they are reached through). *)
Inductive value : Type :=
| VUndefined
| VNull
| VBool (b : bool)
| VNumber (n : float)
| VString (s : string)
| VArray (items : list value)
| VObject (members : list (string * value))
| VNative (name : string).

(** Truthiness, as [if (v)], [!v] and [v || d] test it. *)
Definition truthy (v : value) : bool :=
  match v with
  | VUndefined | VNull => false
  | VBool b => b
  | VNumber n => negb (is_zero n || is_nan n)
  | VString s => negb (s =? "")
  | VArray _ | VObject _ | VNative _ => true
  end.

(** [a || b] *)
Definition js_or (a b : value) : value := if truthy a then a else b.

Definition nullish (v : value) : bool :=
  match v with
  | VUndefined | VNull => true
  | _ => false
  end.

(** [v !== 'text'] and [v === true]. *)
Definition strict_neq_string (v : value) (text : string) : bool :=
  match v with
  | VString s => negb (s =? text)
  | _ => true
  end.

Definition strict_eq_true (v : value) : bool :=
  match v with
  | VBool true => true
  | _ => false
  end.

(** The own members of an object, by name.  The members of a parsed object
    have distinct names. *)
Fixpoint own_member (members : list (string * value)) (name : string) : option value :=
  match members with
  | [] => None
  | (k, v) :: rest => if k =? name then Some v else own_member rest name
  end.

(** The members every ordinary object inherits from [Object.prototype].  The
    Deno runtime deletes [__proto__] from it, so that name is not listed. *)
Definition object_prototype_members : list string :=
  [ "constructor"; "hasOwnProperty"; "isPrototypeOf"; "propertyIsEnumerable";
    "toLocaleString"; "toString"; "valueOf";
    "__defineGetter__"; "__defineSetter__"; "__lookupGetter__"; "__lookupSetter__" ].

Definition inherited_member (name : string) : value :=
  if existsb (String.eqb name) object_prototype_members
  then VNative name else VUndefined.

(** [v.name] and [v[name]] on a value that is neither [null] nor [undefined]:
    an own member first, then the prototype chain.  Strings, numbers, booleans
    and arrays have no member under any of the names this program reads, and
    it reads no member of a function. *)
Definition get_prop (v : value) (name : string) : value :=
  match v with
  | VObject members =>
      match own_member members name with
      | Some x => x
      | None => inherited_member name
      end
  | _ => VUndefined
  end.

(** [v?.name] *)
Definition opt_member (v : value) (name : string) : value :=
  if nullish v then VUndefined else get_prop v name.

(** [JSON.stringify], kept as the value that [JSON.parse] reads back from the
    text it writes.  A member that holds [undefined] or a function is left
    out of an object and written as [null] in an array; a number that is not
    finite is written as [null], and negative zero as [0].  (A parsed value
    has no [toJSON] member that is a function.) *)
Definition unwritten (v : value) : bool :=
  match v with
  | VUndefined | VNative _ => true
  | _ => false
  end.

Fixpoint JSON_stringify (v : value) : value :=
  match v with
  | VNumber n =>
      if is_finite n then (if is_zero n then VNumber 0%float else VNumber n)
      else VNull
  | VArray items =>
      VArray (map (fun x => if unwritten x then VNull else JSON_stringify x)
                items)
  | VObject members =>
      VObject
        ((fix written (l : list (string * value)) : list (string * value) :=
            match l with
            | [] => []
            | (k, x) :: rest =>
                if unwritten x then written rest
                else (k, JSON_stringify x) :: written rest
            end) members)
  | _ => v
  end.

(** The body [JSON.stringify] writes for an object literal. *)
Definition json_object (members : list (string * value)) : value :=
  JSON_stringify (VObject members).

(** What a member of an object literal becomes in the body: absent when it
    is left out. *)
Definition written_member (v : value) : value :=
  if unwritten v then VUndefined else JSON_stringify v.

(** ** getPlanFeeRate (src/index.ts, lines 220-228) *)

Definition feeRates : value :=
  VObject [ ("starter", VNumber 0.05);
            ("professional", VNumber 0.03);
            ("enterprise", VNumber 0.01) ].

Definition getPlanFeeRate (planType : string) : value :=
  js_or (get_prop feeRates planType) (VNumber 0.05).

(** ** Requests and responses *)

(** A request, as far as the handler reads it: the method and the parameters
    of the query string of [req.url], in order. *)
Record Request : Type := {
  method : string;
  query : list (string * string)
}.

(** [url.searchParams.get(name)]: the first value given for [name], if any. *)
Fixpoint searchParams_get (params : list (string * string)) (name : string)
  : option string :=
  match params with
  | [] => None
  | (k, v) :: rest => if k =? name then Some v else searchParams_get rest name
  end.

(** What [get] hands to the program: the string, or [null]. *)
Definition param_value (p : option string) : value :=
  match p with
  | Some s => VString s
  | None => VNull
  end.

(** A response body: none ([null]), plain text, or the text of a JSON value,
    kept here as the value that [JSON.stringify] writes. *)
Inductive Body : Type :=
| NoBody
| TextBody (text : string)
| JsonBody (json : value).

Record Response : Type := {
  status : nat;
  headers : list (string * string);
  body : Body
}.

Definition corsHeaders : list (string * string) :=
  [ ("Access-Control-Allow-Origin", "*");
    ("Access-Control-Allow-Headers",
     "authorization, x-client-info, apikey, content-type") ].

(** ** Errors, and what the outside world answers *)

(** A thrown error object: its class and its [message]. *)
Record exn : Type := {
  error_name : string;
  message : string
}.

Definition Error_ (msg : string) : exn :=
  {| error_name := "Error"; message := msg |}.

(** The engine's error for reading a member of [null] or [undefined], worded
    as V8 words it. *)
Definition TypeError_read (v : value) (name : string) : exn :=
  {| error_name := "TypeError";
     message := "Cannot read properties of "
                ++ (match v with VNull => "null" | _ => "undefined" end)
                ++ " (reading '" ++ name ++ "')" |}.

(** The engine's error for converting to a string an object that has a
    [toString] member of its own: the members of a parsed object are not
    functions, so neither that member nor [valueOf] yields a primitive. *)
Definition TypeError_convert : exn :=
  {| error_name := "TypeError";
     message := "Cannot convert object to primitive value" |}.

(** The engine's error for calling a member that is not a function. *)
Definition TypeError_call (callee : string) : exn :=
  {| error_name := "TypeError"; message := callee ++ " is not a function" |}.

(** What an evaluation gives: a value, or a throw. *)
Inductive result (A : Type) : Type :=
| Returned (a : A)
| Thrown (e : exn).
Arguments Returned {A} a.
Arguments Thrown {A} e.

(** The error object a datastore or authentication call reports in the
    [error] member of its result. *)
Record service_error : Type := {
  service_code : string;
  service_message : string
}.

(** The gateway call, [fetch] followed by [.json()]: either of the two
    rejects, or the parsed body comes back. *)
Inductive fetch_outcome : Type :=
| FetchRejected (e : exn)
| FetchJson (v : value).

(** What a filtered [select('*')] finds: a query error, or the matching rows. *)
Inductive select_outcome : Type :=
| SelectFailed (e : service_error)
| SelectRows (rows : list (list (string * value))).

(** [auth.admin.createUser]: the call rejects, or resolves to
    [{ data, error }]. *)
Inductive create_user_outcome : Type :=
| CreateUserRejected (e : exn)
| CreateUserResolved (data : value) (error : option service_error).

Record World : Type := {
  (** [Deno.env.get('SUPABASE_URL')] and
      [Deno.env.get('SUPABASE_SERVICE_ROLE_KEY')] (lines 10-11) *)
  SUPABASE_URL : option string;
  SUPABASE_SERVICE_ROLE_KEY : option string;
  (** what [createClient] throws for a URL and a key that are both set, when
      it does not accept them (a URL it cannot parse) *)
  client_rejects : option exn;
  (** [Deno.env.get('FLUTTERWAVE_SECRET_KEY')] *)
  FLUTTERWAVE_SECRET_KEY : option string;
  (** the gateway, by URL and [Authorization] header *)
  gateway : string -> string -> fetch_outcome;
  (** the datastore: rows of a table whose column equals a value *)
  select_rows : string -> string -> value -> select_outcome;
  (** the datastore: update of the rows of a table whose column equals a value *)
  update_rows : string -> value -> string -> value -> option service_error;
  (** the datastore: insert of a row into a table *)
  insert_row : string -> value -> option service_error;
  (** the authentication service *)
  createUser : value -> create_user_outcome;
  (** [new Date().toISOString()] at the n-th reading of the clock *)
  clock : nat -> string;
  (** the text the runtime gives a number or a function when it is converted
      to a string *)
  runtime_text : value -> string
}.

(** The text of a value that is not an object or an array; its conversion to
    a string cannot throw. *)
Definition primitive_text (w : World) (v : value) : string :=
  match v with
  | VString s => s
  | VUndefined => "undefined"
  | VNull => "null"
  | VBool true => "true"
  | VBool false => "false"
  | _ => runtime_text w v
  end.

(** Conversion to a string, as in a template literal and in a property key.
    An object is "[object Object]", unless it has a [toString] member of its
    own: then the conversion throws.  An array is its elements joined by
    commas, [null] and [undefined] giving the empty text. *)
Fixpoint to_text (w : World) (v : value) : result string :=
  match v with
  | VObject members =>
      match own_member members "toString" with
      | Some _ => Thrown TypeError_convert
      | None => Returned "[object Object]"
      end
  | VArray items =>
      (fix join (l : list value) : result string :=
         match l with
         | [] => Returned ""
         | x :: rest =>
             match (if nullish x then Returned "" else to_text w x) with
             | Thrown e => Thrown e
             | Returned first =>
                 match rest with
                 | [] => Returned first
                 | _ =>
                     match join rest with
                     | Thrown e => Thrown e
                     | Returned others => Returned (first ++ "," ++ others)
                     end
                 end
             end
         end) items
  | _ => Returned (primitive_text w v)
  end.

(** [paymentData.id?.toString()] (lines 121 and 152): [undefined] for [null]
    and [undefined]; a throw for an object whose own [toString] member is
    called, since it is not a function; the text of the value otherwise. *)
Definition opt_toString (w : World) (v : value) : result value :=
  if nullish v then Returned VUndefined
  else
    match v with
    | VObject members =>
        match own_member members "toString" with
        | Some _ => Thrown (TypeError_call "paymentData.id?.toString")
        | None => Returned (VString "[object Object]")
        end
    | _ =>
        match to_text w v with
        | Returned text => Returned (VString text)
        | Thrown e => Thrown e
        end
    end.

Definition env_value (p : option string) : value :=
  match p with
  | Some s => VString s
  | None => VUndefined
  end.

(** What [createClient(supabaseUrl, supabaseServiceKey)] throws (line 39):
    the client requires a URL and a key that are set and not empty. *)
Definition client_error (w : World) : option exn :=
  if negb (truthy (env_value (SUPABASE_URL w)))
  then Some (Error_ "supabaseUrl is required.")
  else if negb (truthy (env_value (SUPABASE_SERVICE_ROLE_KEY w)))
  then Some (Error_ "supabaseKey is required.")
  else client_rejects w.

(** [.single()] of the datastore client: the one row found, and otherwise an
    error (the client's PGRST116 when the rows are not exactly one). *)
Definition not_a_single_row : service_error :=
  {| service_code := "PGRST116";
     service_message := "JSON object requested, multiple (or no) rows returned" |}.

Definition single (o : select_outcome) : value * option service_error :=
  match o with
  | SelectFailed e => (VNull, Some e)
  | SelectRows [row] => (VObject row, None)
  | SelectRows _ => (VNull, Some not_a_single_row)
  end.

(** ** Events *)

Inductive logged : Type :=
| LogValue (v : value)
| LogServiceError (e : option service_error)
| LogError (e : exn).

Inductive event : Type :=
| ConsoleLog (label : string) (args : list logged)
| ConsoleError (label : string) (args : list logged)
| Fetch (url authorization : string) (outcome : fetch_outcome)
| Select (table column : string) (v : value) (outcome : select_outcome)
| CreateUser (attributes : value) (outcome : create_user_outcome)
| Update (table : string) (patch : value) (column : string) (v : value)
         (outcome : option service_error)
| Insert (table : string) (row : value) (outcome : option service_error)
| ReadClock (n : nat) (stamp : string).

(** ** The monad of the handler: a trace of events, and a value or a throw *)

Definition M (A : Type) : Type := (list event * result A)%type.

Definition ret {A : Type} (a : A) : M A := ([], Returned a).

Definition throw {A : Type} (e : exn) : M A := ([], Thrown e).

Definition bind {A B : Type} (m : M A) (f : A -> M B) : M B :=
  match m with
  | (t, Returned a) => let (t', r) := f a in ((t ++ t')%list, r)
  | (t, Thrown e) => (t, Thrown e)
  end.

(** [try { m } catch (error) { handler error }] *)
Definition try_catch {A : Type} (m : M A) (handler : exn -> M A) : M A :=
  match m with
  | (t, Returned a) => (t, Returned a)
  | (t, Thrown e) => let (t', r) := handler e in ((t ++ t')%list, r)
  end.

Definition emit (e : event) : M unit := ([e], Returned tt).

Declare Scope js_scope.
Delimit Scope js_scope with js.
Notation "x <- m ;; k" := (bind m (fun x => k))
  (at level 61, m at next level, right associativity) : js_scope.
Notation "' pat <- m ;; k" := (bind m (fun x => match x with pat => k end))
  (at level 61, pat pattern, m at next level, right associativity) : js_scope.
Notation "m ;; k" := (bind m (fun _ => k))
  (at level 61, right associativity) : js_scope.
Open Scope js_scope.

(** An evaluation that makes no call. *)
Definition lift {A : Type} (r : result A) : M A := ([], r).

(** [if (c) { m }] *)
Definition when (c : bool) (m : M unit) : M unit := if c then m else ret tt.

Definition is_some {A : Type} (o : option A) : bool :=
  match o with Some _ => true | None => false end.

(** *** The calls the handler makes *)

Definition console_log (label : string) (args : list logged) : M unit :=
  emit (ConsoleLog label args).

Definition console_error (label : string) (args : list logged) : M unit :=
  emit (ConsoleError label args).

(** [v.name]: a TypeError when [v] is [null] or [undefined]. *)
Definition member (v : value) (name : string) : M value :=
  if nullish v then throw (TypeError_read v name) else ret (get_prop v name).

Definition createClient (w : World) : M unit :=
  match client_error w with
  | Some e => throw e
  | None => ret tt
  end.

Definition fetch_json (w : World) (url authorization : string) : M value :=
  let outcome := gateway w url authorization in
  emit (Fetch url authorization outcome) ;;
  match outcome with
  | FetchRejected e => throw e
  | FetchJson v => ret v
  end.

Definition select_single (w : World) (table column : string) (v : value)
  : M (value * option service_error) :=
  let outcome := select_rows w table column v in
  emit (Select table column v outcome) ;;
  ret (single outcome).

Definition update (w : World) (table : string) (patch : value)
  (column : string) (v : value) : M (option service_error) :=
  let outcome := update_rows w table patch column v in
  emit (Update table patch column v outcome) ;;
  ret outcome.

Definition insert (w : World) (table : string) (row : value)
  : M (option service_error) :=
  let outcome := insert_row w table row in
  emit (Insert table row outcome) ;;
  ret outcome.

Definition auth_admin_createUser (w : World) (attributes : value)
  : M (value * option service_error) :=
  let outcome := createUser w attributes in
  emit (CreateUser attributes outcome) ;;
  match outcome with
  | CreateUserRejected e => throw e
  | CreateUserResolved data error => ret (data, error)
  end.

Definition new_Date_toISOString (w : World) (n : nat) : M string :=
  emit (ReadClock n (clock w n)) ;;
  ret (clock w n).

(** ** The handler (src/index.ts, lines 13-218) *)

Definition json_headers : list (string * string) :=
  ("Content-Type", "application/json") :: corsHeaders.

(** Lines 191-203. *)
Definition success_response (subscription_id userId planType : value)
  (isTrial : bool) : Response :=
  {| status := 200;
     headers := json_headers;
     body := JsonBody (json_object
       [ ("success", VBool true);
         ("subscription_id", subscription_id);
         ("user_id", userId);
         ("plan_type", planType);
         ("is_trial", VBool isTrial);
         ("message", VString "Subscription verified and activated successfully") ]) |}.

(** Lines 207-216. *)
Definition failure_response (error : exn) : Response :=
  {| status := 500;
     headers := json_headers;
     body := JsonBody (json_object
       [ ("error", VString "Subscription verification failed");
         ("details", VString (message error)) ]) |}.

(** Lines 42-48: the request sent to the gateway.  The transaction id is a
    string or [null], and the secret key a string or [undefined]: neither is
    an object. *)
Definition verification_url (w : World) (transactionId : value) : string :=
  "https://api.flutterwave.com/v3/transactions/"
  ++ primitive_text w transactionId ++ "/verify".

Definition authorization_header (w : World) : string :=
  "Bearer " ++ primitive_text w (env_value (FLUTTERWAVE_SECRET_KEY w)).

(** Lines 41-57: the payment, as the gateway verifies it. *)
Definition verify_payment (w : World) (transactionId : value) : M value :=
  (* Verify payment with Flutterwave *)
  verificationResult <-
    fetch_json w (verification_url w transactionId) (authorization_header w) ;;
  console_log "Flutterwave verification result:" [LogValue verificationResult] ;;
  overall <- member verificationResult "status" ;;
  not_verified <-
    (if strict_neq_string overall "success" then ret true
     else data <- member verificationResult "data" ;;
          payment_status <- member data "status" ;;
          ret (strict_neq_string payment_status "successful")) ;;
  when not_verified (throw (Error_ "Payment verification failed")) ;;
  member verificationResult "data".

(** Lines 59-71: the subscription record of the transaction reference. *)
Definition find_subscription (w : World) (txRef : value) : M value :=
  '(subscription, subscriptionError) <-
    select_single w "subscriptions" "flutterwave_tx_ref" txRef ;;
  when (is_some subscriptionError || negb (truthy subscription))
    ( console_error "Subscription not found:"
        [LogServiceError subscriptionError] ;;
      throw (Error_ "Subscription not found") ) ;;
  console_log "Found subscription:" [LogValue subscription] ;;
  ret subscription.

(** Lines 73-77: user info from the payment metadata. *)
Record payment_info : Type := {
  customerEmail : value;
  customerName : value;
  planType : value;
  isTrial : bool
}.

Definition extract_user_info (paymentData subscription : value)
  : M payment_info :=
  customerEmail <- (customer <- member paymentData "customer" ;;
                    member customer "email") ;;
  customerName <- (customer <- member paymentData "customer" ;;
                   member customer "name") ;;
  planType <- (meta <- member paymentData "meta" ;;
               let plan := opt_member meta "plan_type" in
               if truthy plan then ret plan
               else member subscription "plan_type") ;;
  isTrial <- (meta <- member paymentData "meta" ;;
              ret (strict_eq_true (opt_member meta "is_trial"))) ;;
  ret {| customerEmail := customerEmail; customerName := customerName;
         planType := planType; isTrial := isTrial |}.

(** Lines 79-113: the user the subscription names, or a new account made from
    the pending user data of the payment. *)
Definition resolve_user (w : World)
  (paymentData subscription customerEmail customerName : value) : M value :=
  userId <- member subscription "user_id" ;;
  if negb (truthy userId) then
    meta <- member paymentData "meta" ;;
    let pendingUserData := opt_member meta "pending_user_data" in
    if truthy pendingUserData then
      try_catch
        ( password <- member pendingUserData "password" ;;
          '(authData, authError) <-
            auth_admin_createUser w
              (VObject [ ("email", customerEmail);
                         ("password", password);
                         ("email_confirm", VBool true);
                         ("user_metadata",
                          VObject [ ("full_name", customerName) ]) ]) ;;
          when (is_some authError)
            ( console_error "User creation error:" [LogServiceError authError] ;;
              throw (Error_ "Failed to create user account") ) ;;
          user <- member authData "user" ;;
          userId <- member user "id" ;;
          console_log "Created user:" [LogValue userId] ;;
          ret userId )
        (fun error =>
           console_error "Error creating user:" [LogError error] ;;
           throw (Error_ "Failed to create user account"))
    else throw (Error_ "No user data found")
  else ret userId.

(** Lines 118-123: the new values of the subscription. *)
Definition subscription_patch (userId flutterwave_subscription_id : value)
  (updated_at : string) : value :=
  VObject [ ("user_id", userId);
            ("status", VString "active");
            ("flutterwave_subscription_id", flutterwave_subscription_id);
            ("updated_at", VString updated_at) ].

(** Lines 115-129: update subscription with user_id and mark as active. *)
Definition activate_subscription (w : World)
  (paymentData subscription userId : value) : M unit :=
  updateSubscriptionError <-
    (payment_id <- member paymentData "id" ;;
     flutterwave_subscription_id <- lift (opt_toString w payment_id) ;;
     updated_at <- new_Date_toISOString w 0 ;;
     subscription_id <- member subscription "id" ;;
     update w "subscriptions"
       (subscription_patch userId flutterwave_subscription_id updated_at)
       "id" subscription_id) ;;
  when (is_some updateSubscriptionError)
    ( console_error "Failed to update subscription:"
        [LogServiceError updateSubscriptionError] ;;
      throw (Error_ "Failed to update subscription") ).

(** Lines 134-138: the new values of the profile. *)
Definition profile_patch (info : payment_info) (updated_at : string) : value :=
  VObject [ ("plan_type", planType info);
            ("subscription_status",
             VString (if isTrial info then "trial" else "active"));
            ("updated_at", VString updated_at) ].

(** Lines 131-144: update user profile with plan information. *)
Definition update_profile (w : World) (info : payment_info) (userId : value)
  : M unit :=
  updateProfileError <-
    (updated_at <- new_Date_toISOString w 1 ;;
     update w "profiles" (profile_patch info updated_at) "id" userId) ;;
  when (is_some updateProfileError)
    (console_error "Failed to update profile:"
       [LogServiceError updateProfileError]).

(** Lines 149-160: the transaction record. *)
Definition transaction_record (txRef : value) (info : payment_info)
  (userId flutterwave_tx_id amount currency payment_type plan_fee_rate : value)
  : value :=
  VObject [ ("user_id", userId);
            ("flutterwave_tx_ref", txRef);
            ("flutterwave_tx_id", flutterwave_tx_id);
            ("amount", amount);
            ("currency", currency);
            ("status", VString "completed");
            ("customer_email", customerEmail info);
            ("customer_name", customerName info);
            ("payment_method", payment_type);
            ("plan_fee_rate", plan_fee_rate) ].

(** The call [getPlanFeeRate(planType)] (line 159): the function reads
    [feeRates[planType]], which converts [planType] to the name of the
    member. *)
Definition call_getPlanFeeRate (w : World) (planType : value) : M value :=
  name <- lift (to_text w planType) ;;
  ret (getPlanFeeRate name).

(** Lines 146-165: create transaction record. *)
Definition create_transaction (w : World) (txRef paymentData : value)
  (info : payment_info) (userId : value) : M unit :=
  transactionError <-
    (payment_id <- member paymentData "id" ;;
     flutterwave_tx_id <- lift (opt_toString w payment_id) ;;
     amount <- member paymentData "amount" ;;
     currency <- member paymentData "currency" ;;
     payment_type <- member paymentData "payment_type" ;;
     plan_fee_rate <- call_getPlanFeeRate w (planType info) ;;
     insert w "transactions"
       (transaction_record txRef info userId flutterwave_tx_id amount
          currency payment_type plan_fee_rate)) ;;
  when (is_some transactionError)
    (console_error "Failed to create transaction record:"
       [LogServiceError transactionError]).

(** Lines 174-176: the template literal of the branch taken converts
    [planType] to a string. *)
Definition notification_message (w : World) (info : payment_info)
  : result string :=
  match to_text w (planType info) with
  | Thrown e => Thrown e
  | Returned plan =>
      Returned
        (if isTrial info
         then "Your " ++ plan
              ++ " plan trial has started! You have 7 days to try all features."
         else "Your " ++ plan
              ++ " plan subscription is now active. Welcome to PayLockr!")
  end.

(** Lines 170-182: the notification. *)
Definition notification_record (info : payment_info)
  (userId : value) (message : string) (subscription_id : value) : value :=
  VObject [ ("user_id", userId);
            ("type", VString "payment");
            ("title", VString "Subscription Activated");
            ("message", VString message);
            ("metadata",
             VObject [ ("plan_type", planType info);
                       ("subscription_id", subscription_id);
                       ("is_trial", VBool (isTrial info)) ]) ].

(** Lines 167-187: create notification for successful subscription. *)
Definition create_notification (w : World) (subscription : value)
  (info : payment_info) (userId : value) : M unit :=
  notificationError <-
    (message <- lift (notification_message w info) ;;
     subscription_id <- member subscription "id" ;;
     insert w "notifications"
       (notification_record info userId message subscription_id)) ;;
  when (is_some notificationError)
    (console_error "Failed to create notification:"
       [LogServiceError notificationError]).

(** Lines 27-203: the body of the [try]. *)
Definition try_block (w : World) (req : Request) : M Response :=
  let txRef := param_value (searchParams_get (query req) "tx_ref") in
  let status := param_value (searchParams_get (query req) "status") in
  let transactionId :=
    param_value (searchParams_get (query req) "transaction_id") in
  when (negb (truthy txRef))
    (throw (Error_ "Missing transaction reference")) ;;
  console_log "Verifying subscription:"
    [LogValue (VObject [ ("txRef", txRef); ("status", status);
                         ("transactionId", transactionId) ])] ;;
  (* Use service role client for admin operations *)
  createClient w ;;
  paymentData <- verify_payment w transactionId ;;
  subscription <- find_subscription w txRef ;;
  info <- extract_user_info paymentData subscription ;;
  userId <- resolve_user w paymentData subscription
              (customerEmail info) (customerName info) ;;
  activate_subscription w paymentData subscription userId ;;
  update_profile w info userId ;;
  create_transaction w txRef paymentData info userId ;;
  create_notification w subscription info userId ;;
  console_log "Subscription verification completed successfully" [] ;;
  subscription_id <- member subscription "id" ;;
  ret (success_response subscription_id userId (planType info) (isTrial info)).

(** Lines 13-218: the function given to [serve]. *)
Definition handler (w : World) (req : Request) : M Response :=
  (* Handle CORS preflight requests *)
  if method req =? "OPTIONS" then
    ret {| status := 200; headers := corsHeaders; body := NoBody |}
  else if negb (method req =? "GET") then
    ret {| status := 405; headers := corsHeaders;
           body := TextBody "Method not allowed" |}
  else
    try_catch (try_block w req)
      (fun error =>
         console_error "Subscription verification error:" [LogError error] ;;
         ret (failure_response error)).

(** What an invocation did, and what it answered. *)
Definition trace_of (w : World) (req : Request) : list event :=
  fst (handler w req).

Definition outcome_of (w : World) (req : Request) : result Response :=
  snd (handler w req).

(** ** Reading a trace and a response *)

Definition is_console (e : event) : bool :=
  match e with
  | ConsoleLog _ _ | ConsoleError _ _ => true
  | _ => false
  end.

Definition is_create_user (e : event) : bool :=
  match e with
  | CreateUser _ _ => true
  | _ => false
  end.

(** A write to the datastore: an update or an insert, on any table. *)
Definition is_datastore_write (e : event) : bool :=
  match e with
  | Update _ _ _ _ _ | Insert _ _ _ => true
  | _ => false
  end.

(** A write to one table of the datastore. *)
Definition writes_to (table : string) (e : event) : bool :=
  match e with
  | Update t _ _ _ _ | Insert t _ _ => t =? table
  | _ => false
  end.

(** A call to the gateway, the datastore or the authentication service. *)
Definition is_external_call (e : event) : bool :=
  match e with
  | Fetch _ _ _ | Select _ _ _ _ | CreateUser _ _
  | Update _ _ _ _ _ | Insert _ _ _ => true
  | _ => false
  end.

(** The line a best-effort write leaves on the console when it reports an
    error, and nothing when it does not. *)
Definition error_log (label : string) (o : option service_error) : list event :=
  match o with
  | Some _ => [ConsoleError label [LogServiceError o]]
  | None => []
  end.

(** A member of the JSON body of a response. *)
Definition body_member (r : Response) (name : string) : value :=
  match body r with
  | JsonBody json => get_prop json name
  | _ => VUndefined
  end.

(** What the gateway reports: the overall status of its answer, and the
    status of the transaction in it, where the answer has them. *)
Definition read (v : value) (name : string) : option value :=
  if nullish v then None else Some (get_prop v name).

Definition overall_status (answer : value) : option value :=
  read answer "status".

Definition transaction_status (answer : value) : option value :=
  match read answer "data" with
  | Some data => read data "status"
  | None => None
  end.

Definition reports_failure (answer : value) : Prop :=
  (exists s, overall_status answer = Some s /\ s <> VString "success") \/
  (exists s, transaction_status answer = Some s /\ s <> VString "successful").

(** The lookup did not find exactly one row. *)
Definition not_one_row (found : select_outcome) : Prop :=
  match found with
  | SelectFailed _ => True
  | SelectRows rows => length rows <> 1
  end.

(** The trial flag and the plan type of a payment: [meta.is_trial] being
    [true], and [meta.plan_type]. *)
Definition trial_flag (paymentData : value) : bool :=
  strict_eq_true (opt_member (get_prop paymentData "meta") "is_trial").

Definition payment_plan_type (paymentData : value) : value :=
  opt_member (get_prop paymentData "meta") "plan_type".

(** The response carries the cross-origin headers of [corsHeaders]. *)
Definition has_cors_headers (resp : Response) : Prop :=
  In ("Access-Control-Allow-Origin", "*") (headers resp) /\
  In ("Access-Control-Allow-Headers",
      "authorization, x-client-info, apikey, content-type") (headers resp).

(** The invocation answers with the failure response, with this detail. *)
Definition fails_with (out : result Response) (detail : string) : Prop :=
  exists resp,
    out = Returned resp /\ status resp = 500 /\
    body_member resp "error" = VString "Subscription verification failed" /\
    body_member resp "details" = VString detail.

(** The payload of a call. *)
Definition payload (e : event) : value :=
  match e with
  | Update _ patch _ _ _ => patch
  | Insert _ row _ => row
  | CreateUser attributes _ => attributes
  | _ => VUndefined
  end.

(** A table is written to, and every write to it carries a payload with
    the property. *)
Definition written (t : list event) (table : string) (P : value -> Prop)
  : Prop :=
  (exists e, In e t /\ writes_to table e = true) /\
  forall e, In e t -> writes_to table e = true -> P (payload e).

(** ** Sample worlds and requests *)

Module Sample.

Definition customer : value :=
  VObject [ ("email", VString "ada@example.com"); ("name", VString "Ada") ].

(** A verification response of the gateway for a successful payment. *)
Definition verified (meta : value) : value :=
  VObject
    [ ("status", VString "success");
      ("message", VString "Transaction fetched successfully");
      ("data",
       VObject [ ("id", VNumber 4975363);
                 ("status", VString "successful");
                 ("amount", VNumber 5000);
                 ("currency", VString "NGN");
                 ("payment_type", VString "card");
                 ("customer", customer);
                 ("meta", meta) ]) ].

(** The gateway's answer for a transaction it does not know. *)
Definition not_verified : value :=
  VObject [ ("status", VString "error");
            ("message", VString "No transaction was found for this id");
            ("data", VNull) ].

(** The metadata of a trial payment made before the account exists. *)
Definition trial_meta (plan_type : string) : value :=
  VObject [ ("plan_type", VString plan_type);
            ("is_trial", VBool true);
            ("pending_user_data",
             VObject [ ("password", VString "correct horse") ]) ].

Definition subscription_row (user_id : value) (plan_type : string)
  : list (string * value) :=
  [ ("id", VString "sub-1");
    ("user_id", user_id);
    ("plan_type", VString plan_type);
    ("status", VString "pending");
    ("flutterwave_tx_ref", VString "ref-1") ].

Definition refused : service_error :=
  {| service_code := "42501"; service_message := "permission denied" |}.

Definition no_error : string -> option service_error := fun _ => None.

Definition errors_on (tables : list string) : string -> option service_error :=
  fun t => if existsb (String.eqb t) tables then Some refused else None.

Definition new_account : create_user_outcome :=
  CreateUserResolved
    (VObject [ ("user", VObject [ ("id", VString "user-9") ]) ]) None.

Definition world (answer : value) (found : select_outcome)
  (updates inserts : string -> option service_error) : World :=
  {| SUPABASE_URL := Some "https://project.supabase.co";
     SUPABASE_SERVICE_ROLE_KEY := Some "service-role-key";
     client_rejects := None;
     FLUTTERWAVE_SECRET_KEY := Some "FLWSECK_TEST";
     gateway := fun _ _ => FetchJson answer;
     select_rows := fun _ _ _ => found;
     update_rows := fun table _ _ _ => updates table;
     insert_row := fun table _ => inserts table;
     createUser := fun _ => new_account;
     clock := fun n => if Nat.eqb n 0 then "2024-01-01T00:00:00.000Z"
                       else "2024-01-01T00:00:00.050Z";
     runtime_text := fun v => match v with
                              | VNumber n => if is_infinity n then "Infinity"
                                             else "4975363"
                              | _ => "function Object() { [native code] }"
                              end |}.

(** The gateway does not know the transaction. *)
Definition unknown_transaction : World :=
  world not_verified (SelectRows []) no_error no_error.

(** The payment is verified, and no subscription has its reference. *)
Definition no_subscription : World :=
  world (verified VNull) (SelectRows []) no_error no_error.

(** A customer who has an account pays for the professional plan. *)
Definition returning_customer (updates inserts : string -> option service_error)
  : World :=
  world (verified VNull)
    (SelectRows [subscription_row (VString "user-1") "professional"])
    updates inserts.

(** A customer without an account starts a trial of the starter plan, on a
    subscription recorded as professional. *)
Definition new_customer (updates inserts : string -> option service_error)
  : World :=
  world (verified (trial_meta "starter"))
    (SelectRows [subscription_row VNull "professional"])
    updates inserts.

(** The four worlds of the runs below: the update of the subscription is
    refused after the account is created; the three later writes are refused;
    nothing is refused, for each of the two customers. *)
Definition activation_refused : World :=
  new_customer (errors_on ["subscriptions"]) no_error.

Definition later_writes_refused : World :=
  returning_customer (errors_on ["profiles"])
    (errors_on ["transactions"; "notifications"]).

Definition renewal : World := returning_customer no_error no_error.

Definition trial_signup : World := new_customer no_error no_error.

Definition stamp : string := "2024-01-01T00:00:00.000Z".

(** A payment whose metadata names its plan. *)
Definition plan_named (plan_type : string) : World :=
  world (verified (VObject [ ("plan_type", VString plan_type) ]))
    (SelectRows [subscription_row (VString "user-1") "starter"])
    no_error no_error.

(** The redirect of the gateway, and requests that lack the reference. *)
Definition callback : Request :=
  {| method := "GET";
     query := [ ("status", "successful"); ("tx_ref", "ref-1");
                ("transaction_id", "4975363") ] |}.

Definition without_reference (m : string) : Request :=
  {| method := m; query := [ ("status", "cancelled") ] |}.

Definition url : string :=
  "https://api.flutterwave.com/v3/transactions/4975363/verify".

Definition authorization : string := "Bearer FLWSECK_TEST".

End Sample.

(** ** More of what a trace shows *)

(** A read or a write of the datastore. *)
Definition is_datastore_access (e : event) : bool :=
  match e with
  | Select _ _ _ _ | Update _ _ _ _ _ | Insert _ _ _ => true
  | _ => false
  end.

(** Lines 90-95: the attributes of the account. *)
Definition account_attributes (customerEmail password customerName : value)
  : value :=
  VObject [ ("email", customerEmail);
            ("password", password);
            ("email_confirm", VBool true);
            ("user_metadata", VObject [ ("full_name", customerName) ]) ].

(** The id of the account a call to [createUser] made, when it made one:
    [data.user.id] of a result without error. *)
Definition account_id (o : create_user_outcome) : option value :=
  match o with
  | CreateUserResolved data None =>
      if nullish data then None
      else if nullish (get_prop data "user") then None
      else Some (get_prop (get_prop data "user") "id")
  | _ => None
  end.

(** The calls of a trace to the gateway, the datastore and the
    authentication service, by name and in order. *)
Definition call_name (e : event) : string :=
  match e with
  | Fetch _ _ _ => "fetch"
  | Select table _ _ _ => "select " ++ table
  | CreateUser _ _ => "createUser"
  | Update table _ _ _ _ => "update " ++ table
  | Insert table _ _ => "insert " ++ table
  | _ => ""
  end.

Definition calls (t : list event) : list string :=
  map call_name (filter is_external_call t).

Definition is_prefix (l full : list string) : Prop :=
  exists rest, full = (l ++ rest)%list.

(** The calls of a run to the end, for a user the subscription names and for
    a user created on the way. *)
Definition calls_for_known_user : list string :=
  [ "fetch"; "select subscriptions"; "update subscriptions";
    "update profiles"; "insert transactions"; "insert notifications" ].

Definition calls_for_new_user : list string :=
  [ "fetch"; "select subscriptions"; "createUser"; "update subscriptions";
    "update profiles"; "insert transactions"; "insert notifications" ].

(** The answer of the gateway reports a verified payment. *)
Definition verified_payment (answer : value) : Prop :=
  overall_status answer = Some (VString "success") /\
  transaction_status answer = Some (VString "successful").

(** The user a write is made for: the key of the profile it updates, and
    otherwise the [user_id] member of its payload. *)
Definition written_for (e : event) : option value :=
  match e with
  | Update table patch _ key _ =>
      if table =? "profiles" then Some key else Some (get_prop patch "user_id")
  | Insert _ row _ => Some (get_prop row "user_id")
  | _ => None
  end.

(** The last event of a trace. *)
Definition ends_with (t : list event) (e : event) : Prop :=
  exists before, t = (before ++ [e])%list.

(** Two runs with the same calls and the same result. *)
Definition same_run {A : Type} (m m' : M A) : Prop :=
  filter is_external_call (fst m) = filter is_external_call (fst m') /\
  snd m = snd m'.

(** ** More sample worlds and requests *)

Module Edge.

Definition world (answer : fetch_outcome) (found : select_outcome)
  (account : create_user_outcome) : World :=
  {| SUPABASE_URL := SUPABASE_URL Sample.renewal;
     SUPABASE_SERVICE_ROLE_KEY := SUPABASE_SERVICE_ROLE_KEY Sample.renewal;
     client_rejects := None;
     FLUTTERWAVE_SECRET_KEY := Some "FLWSECK_TEST";
     gateway := fun _ _ => answer;
     select_rows := fun _ _ _ => found;
     update_rows := fun _ _ _ _ => None;
     insert_row := fun _ _ => None;
     createUser := fun _ => account;
     clock := clock Sample.renewal;
     runtime_text := runtime_text Sample.renewal |}.

(** The gateway cannot be reached. *)
Definition unreachable_error : exn :=
  {| error_name := "TypeError"; message := "error sending request" |}.

Definition unreachable : World :=
  world (FetchRejected unreachable_error) (SelectRows []) Sample.new_account.

(** An answer that reports success and carries no payment. *)
Definition success_without_data : value :=
  VObject [ ("status", VString "success"); ("data", VNull) ].

Definition answers_without_data : World :=
  world (FetchJson success_without_data) (SelectRows []) Sample.new_account.

(** A verified payment that names no customer. *)
Definition payment_without_customer : value :=
  VObject [ ("status", VString "success");
            ("data", VObject [ ("id", VNumber 4975363);
                               ("status", VString "successful");
                               ("meta", VNull) ]) ].

Definition pending_row : list (string * value) :=
  Sample.subscription_row VNull "starter".

Definition names_no_customer : World :=
  world (FetchJson payment_without_customer) (SelectRows [pending_row])
    Sample.new_account.

(** A verified payment without pending user data, for a subscription
    without user. *)
Definition no_user_data : World :=
  world (FetchJson (Sample.verified VNull)) (SelectRows [pending_row])
    Sample.new_account.

(** The authentication service refuses the account. *)
Definition refusing_account : create_user_outcome :=
  CreateUserResolved (VObject [ ("user", VNull) ]) (Some Sample.refused).

Definition account_refused : World :=
  world (FetchJson (Sample.verified (Sample.trial_meta "starter")))
    (SelectRows [pending_row]) refusing_account.

(** Requests: an empty reference, no transaction id, and the redirect with
    another status hint. *)
Definition empty_reference : Request :=
  {| method := "GET";
     query := [ ("tx_ref", ""); ("transaction_id", "4975363") ] |}.

Definition without_transaction_id : Request :=
  {| method := "GET"; query := [ ("tx_ref", "ref-1") ] |}.

Definition callback_reporting (status : string) : Request :=
  {| method := "GET";
     query := [ ("status", status); ("tx_ref", "ref-1");
                ("transaction_id", "4975363") ] |}.

(** The secret key of the gateway is not set. *)
Definition without_secret : World :=
  {| SUPABASE_URL := SUPABASE_URL Sample.renewal;
     SUPABASE_SERVICE_ROLE_KEY := SUPABASE_SERVICE_ROLE_KEY Sample.renewal;
     client_rejects := None;
     FLUTTERWAVE_SECRET_KEY := None;
     gateway := gateway Sample.renewal;
     select_rows := select_rows Sample.renewal;
     update_rows := update_rows Sample.renewal;
     insert_row := insert_row Sample.renewal;
     createUser := createUser Sample.renewal;
     clock := clock Sample.renewal;
     runtime_text := runtime_text Sample.renewal |}.




(** The URL of the datastore is not configured. *)
Definition without_configuration : World :=
  {| SUPABASE_URL := None;
     SUPABASE_SERVICE_ROLE_KEY := SUPABASE_SERVICE_ROLE_KEY Sample.renewal;
     client_rejects := None;
     FLUTTERWAVE_SECRET_KEY := FLUTTERWAVE_SECRET_KEY Sample.renewal;
     gateway := gateway Sample.renewal;
     select_rows := select_rows Sample.renewal;
     update_rows := update_rows Sample.renewal;
     insert_row := insert_row Sample.renewal;
     createUser := createUser Sample.renewal;
     clock := clock Sample.renewal;
     runtime_text := runtime_text Sample.renewal |}.

(** A verified payment whose metadata gives, as plan type, an object with a
    [toString] member; the update of the profile is refused. *)
Definition plan_not_a_name : value :=
  VObject [ ("toString", VNumber 1) ].

Definition plan_cannot_be_named : World :=
  Sample.world
    (Sample.verified (VObject [ ("plan_type", plan_not_a_name) ]))
    (SelectRows [Sample.subscription_row (VString "user-1") "starter"])
    (Sample.errors_on ["profiles"]) Sample.no_error.

(** A verified payment whose metadata gives, as plan type, a number too
    large for a double: [1e400] is read as [Infinity]. *)
Definition payment_out_of_range : value :=
  Sample.verified (VObject [ ("plan_type", VNumber infinity) ]).

Definition plan_out_of_range : World :=
  Sample.world payment_out_of_range
    (SelectRows [Sample.subscription_row (VString "user-1") "starter"])
    Sample.no_error Sample.no_error.

(** A verified payment whose id is an object with a [toString] member, for
    a customer without account. *)
Definition payment_without_number : value :=
  VObject
    [ ("status", VString "success");
      ("data",
       VObject [ ("id", VObject [ ("toString", VNumber 1) ]);
                 ("status", VString "successful");
                 ("customer", Sample.customer);
                 ("meta", Sample.trial_meta "starter") ]) ].

End Edge.

(** ** Values *)

Lemma truthy_not_nullish (v : value) : truthy v = true -> nullish v = false.
Proof. destruct v; simpl; congruence. Qed.

Lemma strict_neq_string_false (v : value) (s : string) :
  strict_neq_string v s = false <-> v = VString s.
Proof.
  destruct v; simpl; split; try discriminate.
  - intro H. apply negb_false_iff, String.eqb_eq in H. now subst.
  - intro H. injection H as ->. now rewrite String.eqb_refl.
Qed.

Lemma strict_neq_string_true (v : value) (s : string) :
  strict_neq_string v s = true <-> v <> VString s.
Proof.
  split.
  - intros H E. apply strict_neq_string_false in E. congruence.
  - intro H. destruct (strict_neq_string v s) eqn:E; [reflexivity|].
    apply strict_neq_string_false in E. contradiction.
Qed.

Lemma reports_failure_iff (v : value) :
  reports_failure v <->
  nullish v = false /\
  (strict_neq_string (get_prop v "status") "success" = true \/
   (nullish (get_prop v "data") = false /\
    strict_neq_string (get_prop (get_prop v "data") "status") "successful" = true)).
Proof.
  unfold reports_failure, overall_status, transaction_status, read.
  destruct (nullish v) eqn:En.
  - split.
    + intros [(s & [=] & _) | (s & [=] & _)].
    + intros [[=] _].
  - destruct (nullish (get_prop v "data")) eqn:Ed.
    + split.
      * intros [(s & [= <-] & Hs) | (s & [=] & _)].
        split; [reflexivity|]. left. now apply strict_neq_string_true.
      * intros [_ [Hs | [[=] _]]]. left. eexists. split; [reflexivity|].
        now apply strict_neq_string_true.
    + split.
      * intros [(s & [= <-] & Hs) | (s & [= <-] & Hs)];
          (split; [reflexivity|]).
        -- left. now apply strict_neq_string_true.
        -- right. split; [reflexivity|]. now apply strict_neq_string_true.
      * intros [_ [Hs | [_ Hs]]].
        -- left. eexists. split; [reflexivity|].
           now apply strict_neq_string_true.
        -- right. eexists. split; [reflexivity|].
           now apply strict_neq_string_true.
Qed.

Lemma truthy_param (p : option string) :
  truthy (param_value p) = true ->
  exists reference, p = Some reference /\ reference <> "".
Proof.
  destruct p as [reference|]; simpl; [|discriminate].
  intro H. exists reference. split; [reflexivity|].
  intros ->. discriminate H.
Qed.

Lemma verified_payment_iff (answer : value) :
  verified_payment answer <->
  nullish answer = false /\
  strict_neq_string (get_prop answer "status") "success" = false /\
  nullish (get_prop answer "data") = false /\
  strict_neq_string (get_prop (get_prop answer "data") "status") "successful"
  = false.
Proof.
  unfold verified_payment, overall_status, transaction_status, read.
  rewrite !strict_neq_string_false.
  destruct (nullish answer).
  - split; [intros [[=] _] | intros [[=] _]].
  - destruct (nullish (get_prop answer "data")).
    + split; [intros [_ [=]] | intros (_ & _ & [=] & _)].
    + split.
      * intros [[= ->] [= ->]]. repeat split; reflexivity.
      * intros (_ & -> & _ & ->). split; reflexivity.
Qed.

(** ** The stages of the handler, one at a time *)

(** Unfold the monad and compute what is known. *)
Ltac simp :=
  cbv beta delta [bind try_catch ret throw emit when lift console_log
                  console_error fetch_json select_single update insert
                  auth_admin_createUser new_Date_toISOString member
                  createClient call_getPlanFeeRate];
  cbn [fst snd app negb orb andb is_some single truthy nullish
       customerEmail customerName planType isTrial].

Lemma verify_payment_run (w : World) (transactionId : value) :
  let url := verification_url w transactionId in
  let authorization := authorization_header w in
  verify_payment w transactionId =
  match gateway w url authorization with
  | FetchRejected e => ([Fetch url authorization (FetchRejected e)], Thrown e)
  | FetchJson v =>
      ([Fetch url authorization (FetchJson v);
        ConsoleLog "Flutterwave verification result:" [LogValue v]],
       if nullish v then Thrown (TypeError_read v "status")
       else if strict_neq_string (get_prop v "status") "success"
       then Thrown (Error_ "Payment verification failed")
       else if nullish (get_prop v "data")
       then Thrown (TypeError_read (get_prop v "data") "status")
       else if strict_neq_string (get_prop (get_prop v "data") "status")
                 "successful"
       then Thrown (Error_ "Payment verification failed")
       else Returned (get_prop v "data"))
  end.
Proof.
  cbv zeta. unfold verify_payment. simp.
  destruct (gateway w _ _) as [e|v]; simp; [reflexivity|].
  destruct (nullish v); simp; [reflexivity|].
  destruct (strict_neq_string (get_prop v "status") "success"); simp;
    [reflexivity|].
  destruct (nullish (get_prop v "data")); simp; [reflexivity|].
  destruct (strict_neq_string _ "successful"); reflexivity.
Qed.

Lemma find_subscription_run (w : World) (txRef : value) :
  let found := select_rows w "subscriptions" "flutterwave_tx_ref" txRef in
  let looked_up := Select "subscriptions" "flutterwave_tx_ref" txRef found in
  find_subscription w txRef =
  match found with
  | SelectRows [row] =>
      ([looked_up; ConsoleLog "Found subscription:" [LogValue (VObject row)]],
       Returned (VObject row))
  | _ =>
      ([looked_up;
        ConsoleError "Subscription not found:"
          [LogServiceError (snd (single found))]],
       Thrown (Error_ "Subscription not found"))
  end.
Proof.
  cbv zeta. unfold find_subscription. simp.
  destruct (select_rows w _ _ _) as [e | [ | row [ | row' rows]]]; reflexivity.
Qed.

Lemma extract_user_info_run (paymentData : value)
  (row : list (string * value)) :
  nullish paymentData = false ->
  let customer := get_prop paymentData "customer" in
  extract_user_info paymentData (VObject row) =
  ([], if nullish customer then Thrown (TypeError_read customer "email")
       else Returned
              {| customerEmail := get_prop customer "email";
                 customerName := get_prop customer "name";
                 planType := js_or (payment_plan_type paymentData)
                               (get_prop (VObject row) "plan_type");
                 isTrial := trial_flag paymentData |}).
Proof.
  intro Hdata. cbv zeta.
  unfold extract_user_info, payment_plan_type, js_or, trial_flag. simp.
  rewrite Hdata. simp.
  destruct (nullish (get_prop paymentData "customer")); simp; [reflexivity|].
  destruct (truthy (opt_member (get_prop paymentData "meta") "plan_type"));
    reflexivity.
Qed.

Lemma resolve_user_run (w : World) (paymentData : value)
  (row : list (string * value)) (email name : value) :
  nullish paymentData = false ->
  let userId := get_prop (VObject row) "user_id" in
  let pendingUserData :=
    opt_member (get_prop paymentData "meta") "pending_user_data" in
  let attributes :=
    account_attributes email (get_prop pendingUserData "password") name in
  let account := createUser w attributes in
  let failed := Error_ "Failed to create user account" in
  resolve_user w paymentData (VObject row) email name =
  if truthy userId then ([], Returned userId)
  else if truthy pendingUserData then
    match account with
    | CreateUserRejected e =>
        ([CreateUser attributes account;
          ConsoleError "Error creating user:" [LogError e]],
         Thrown failed)
    | CreateUserResolved data (Some e) =>
        ([CreateUser attributes account;
          ConsoleError "User creation error:" [LogServiceError (Some e)];
          ConsoleError "Error creating user:" [LogError failed]],
         Thrown failed)
    | CreateUserResolved data None =>
        if nullish data then
          ([CreateUser attributes account;
            ConsoleError "Error creating user:"
              [LogError (TypeError_read data "user")]],
           Thrown failed)
        else if nullish (get_prop data "user") then
          ([CreateUser attributes account;
            ConsoleError "Error creating user:"
              [LogError (TypeError_read (get_prop data "user") "id")]],
           Thrown failed)
        else
          ([CreateUser attributes account;
            ConsoleLog "Created user:"
              [LogValue (get_prop (get_prop data "user") "id")]],
           Returned (get_prop (get_prop data "user") "id"))
    end
  else ([], Thrown (Error_ "No user data found")).
Proof.
  intro Hdata. cbv zeta. unfold resolve_user, account_attributes. simp.
  destruct (truthy (get_prop (VObject row) "user_id")); simp; [reflexivity|].
  rewrite Hdata. simp.
  destruct (truthy (opt_member (get_prop paymentData "meta")
                      "pending_user_data")) eqn:Hp; simp; [|reflexivity].
  rewrite (truthy_not_nullish _ Hp). simp.
  destruct (createUser w _) as [e | data [e|]]; simp; try reflexivity.
  destruct (nullish data); simp; [reflexivity|].
  destruct (nullish (get_prop data "user")); reflexivity.
Qed.

Lemma activate_subscription_run (w : World) (paymentData : value)
  (row : list (string * value)) (userId : value) :
  nullish paymentData = false ->
  activate_subscription w paymentData (VObject row) userId =
  match opt_toString w (get_prop paymentData "id") with
  | Thrown e => ([], Thrown e)
  | Returned payment_id =>
      let patch := subscription_patch userId payment_id (clock w 0) in
      let id := get_prop (VObject row) "id" in
      let outcome := update_rows w "subscriptions" patch "id" id in
      (ReadClock 0 (clock w 0)
       :: Update "subscriptions" patch "id" id outcome
       :: error_log "Failed to update subscription:" outcome,
       match outcome with
       | Some _ => Thrown (Error_ "Failed to update subscription")
       | None => Returned tt
       end)
  end.
Proof.
  intro Hdata. unfold activate_subscription. simp.
  rewrite Hdata. simp.
  destruct (opt_toString w _); simp; [|reflexivity].
  destruct (update_rows w _ _ _ _); reflexivity.
Qed.

Lemma update_profile_run (w : World) (info : payment_info) (userId : value) :
  let patch := profile_patch info (clock w 1) in
  let outcome := update_rows w "profiles" patch "id" userId in
  update_profile w info userId =
  (ReadClock 1 (clock w 1)
   :: Update "profiles" patch "id" userId outcome
   :: error_log "Failed to update profile:" outcome,
   Returned tt).
Proof.
  cbv zeta. unfold update_profile. simp.
  destruct (update_rows w _ _ _ _); reflexivity.
Qed.

Lemma create_transaction_run (w : World) (txRef paymentData : value)
  (info : payment_info) (userId : value) :
  nullish paymentData = false ->
  create_transaction w txRef paymentData info userId =
  match opt_toString w (get_prop paymentData "id") with
  | Thrown e => ([], Thrown e)
  | Returned payment_id =>
      match to_text w (planType info) with
      | Thrown e => ([], Thrown e)
      | Returned name =>
          let record :=
            transaction_record txRef info userId payment_id
              (get_prop paymentData "amount")
              (get_prop paymentData "currency")
              (get_prop paymentData "payment_type") (getPlanFeeRate name) in
          let outcome := insert_row w "transactions" record in
          (Insert "transactions" record outcome
           :: error_log "Failed to create transaction record:" outcome,
           Returned tt)
      end
  end.
Proof.
  intro Hdata. unfold create_transaction. simp.
  rewrite Hdata. simp.
  destruct (opt_toString w _); simp; [|reflexivity].
  destruct (to_text w _); simp; [|reflexivity].
  destruct (insert_row w _ _); reflexivity.
Qed.

Lemma create_notification_run (w : World) (row : list (string * value))
  (info : payment_info) (userId : value) :
  create_notification w (VObject row) info userId =
  match notification_message w info with
  | Thrown e => ([], Thrown e)
  | Returned message =>
      let record :=
        notification_record info userId message (get_prop (VObject row) "id") in
      let outcome := insert_row w "notifications" record in
      (Insert "notifications" record outcome
       :: error_log "Failed to create notification:" outcome,
       Returned tt)
  end.
Proof.
  unfold create_notification. simp.
  destruct (notification_message w info); simp; [|reflexivity].
  destruct (insert_row w _ _); reflexivity.
Qed.

(** ** Traces *)

Lemma error_log_console (label : string) (o : option service_error) :
  Forall (fun e => is_console e = true) (error_log label o).
Proof. destruct o; repeat constructor. Qed.

Lemma not_in_footprint (P : event -> bool) (l : list event) (ev : event) :
  Forall (fun e => P e = true) l -> P ev = false -> ~ In ev l.
Proof.
  intros HF HP HI. rewrite Forall_forall in HF. apply HF in HI. congruence.
Qed.

(** An event that a part of a trace cannot hold. *)
Ltac absent H :=
  exfalso; revert H;
  lazymatch goal with
  | |- In _ (error_log ?label ?o) -> _ =>
      apply (not_in_footprint _ _ _ (error_log_console label o)); reflexivity
  | |- In _ ?l -> _ =>
      match goal with
      | HF : Forall _ l |- _ => apply (not_in_footprint _ _ _ HF); reflexivity
      end
  end.

(** Where in a trace an event lies. *)
Ltac locate H :=
  lazymatch type of H with
  | In _ (_ :: _) => destruct H as [H|H]; [ | locate H]
  | In _ (_ ++ _) =>
      apply in_app_or in H; destruct H as [H|H]; [locate H | locate H]
  | In _ [] => destruct H
  | In _ _ => try (absent H)
  | _ => idtac
  end.

(** Every event of a trace is of a kind. *)
Ltac kind_of_each :=
  let e := fresh "e" in let He := fresh "He" in
  intros e He; destruct e; simpl in *;
  first [ discriminate He | repeat split; reflexivity ].

Ltac footprint :=
  repeat first
    [ apply Forall_nil
    | apply Forall_cons; [repeat split; reflexivity|]
    | apply Forall_app; split
    | (eapply Forall_impl; [|eassumption]; kind_of_each)
    | (eapply Forall_impl; [|apply error_log_console]; kind_of_each) ].

(** An event that is in a trace. *)
Ltac here :=
  first [ apply in_eq
        | assumption
        | apply in_cons; here
        | apply in_or_app; right; here
        | apply in_or_app; left; here ].

(** A part of a trace that holds no write. *)
Ltac no_write Hin :=
  exfalso;
  lazymatch type of Hin with
  | In ?e (error_log ?label ?o) =>
      let HF := fresh in
      assert (HF := error_log_console label o);
      rewrite Forall_forall in HF; specialize (HF _ Hin);
      destruct e; simpl in *; discriminate
  | In ?e ?l =>
      match goal with
      | HF : Forall _ l |- _ =>
          rewrite Forall_forall in HF; specialize (HF _ Hin);
          destruct e; simpl in *; discriminate
      end
  end.

(** Where in a trace a write to a table lies. *)
Ltac locate_write Hin Hw :=
  lazymatch type of Hin with
  | In _ (_ :: _) =>
      destruct Hin as [Hin|Hin];
      [ subst; try discriminate Hw | locate_write Hin Hw ]
  | In _ (_ ++ _) =>
      apply in_app_or in Hin; destruct Hin as [Hin|Hin];
      [ locate_write Hin Hw | locate_write Hin Hw ]
  | In _ [] => destruct Hin
  | In _ _ => no_write Hin
  end.

Ltac is_written :=
  lazymatch goal with
  | |- written ?t ?table _ =>
      split;
      [ match t with
        | context [Update table ?p ?c ?k ?o] => exists (Update table p c k o)
        | context [Insert table ?r ?o] => exists (Insert table r o)
        end; split; [here | reflexivity]
      | let e := fresh "e" in let Hin := fresh "Hin" in let Hw := fresh "Hw" in
        intros e Hin Hw; locate_write Hin Hw ]
  end.

(** An event of the trace of a sample run, and a table written in it. *)
Ltac in_sample_trace :=
  vm_compute; repeat first [ left; reflexivity | right ].

Ltac is_written_in_sample :=
  lazymatch goal with
  | |- written ?t ?table ?P =>
      let run := eval vm_compute in t in
      change (written run table P); is_written
  end.

(** The payment data of the answer is an object. *)
Ltac with_data k :=
  match goal with
  | H : nullish (get_prop _ "data") = false |- _ => k H
  end.

(** The last three writes, once the subscription is updated. *)
Ltac later_writes w :=
  with_data ltac:(fun H =>
    rewrite update_profile_run, (create_transaction_run _ _ _ _ _ H));
  cbv zeta;
  match goal with
  | Htext : opt_toString w _ = Returned _ |- _ => rewrite Htext
  end;
  simp;
  destruct (to_text w _) as [plan_name | conversion] eqn:Hplan_name; simp;
  [ rewrite create_notification_run; unfold notification_message;
    cbn [planType isTrial]; rewrite Hplan_name; cbv zeta; simp
  | ].

(** The update of the subscription, and what follows it. *)
Ltac activation w :=
  with_data ltac:(fun H => rewrite (activate_subscription_run _ _ _ _ H));
  destruct (opt_toString w _) as [payment_id | conversion] eqn:Hpayment_id;
  cbv zeta; simp;
  [ destruct (update_rows w "subscriptions" _ _ _) as [failure | ]
      eqn:Hactivate; simp;
    [ | later_writes w ]
  | ].

(** The runs of an invocation, with the trace of each written out. *)
Ltac handler_runs w req :=
  unfold trace_of, outcome_of, handler;
  destruct (method req =? "OPTIONS") eqn:Hoptions;
  [ | destruct (method req =? "GET") eqn:Hget; cbn [negb];
      [ unfold try_block; simp;
        destruct (truthy (param_value (searchParams_get (query req) "tx_ref")))
          eqn:Href; simp;
        [ destruct (client_error w) as [misconfigured | ] eqn:Hclient; simp;
          [ | rewrite verify_payment_run; cbv zeta;
          destruct (gateway w _ _) as [rejection | reply] eqn:Hreply; simp;
          [ | destruct (nullish reply) eqn:Hnull; simp;
              [ | destruct (strict_neq_string (get_prop reply "status")
                              "success") eqn:Hoverall; simp;
                  [ | destruct (nullish (get_prop reply "data")) eqn:Hdata;
                      simp;
                      [ | destruct (strict_neq_string
                                      (get_prop (get_prop reply "data")
                                         "status") "successful")
                            eqn:Hpayment; simp;
                          [ | rewrite find_subscription_run; cbv zeta;
                              destruct (select_rows w _ _ _)
                                as [refusal | [ | row [ | row' rows]]]
                                   eqn:Hfound; simp;
                              [ | | with_data ltac:(fun H =>
                                      rewrite (extract_user_info_run _ _ H));
                                    cbv zeta;
                                    destruct (nullish
                                                (get_prop
                                                   (get_prop reply "data")
                                                   "customer"))
                                      eqn:Hcustomer; simp;
                                    [ | with_data ltac:(fun H =>
                                          rewrite
                                            (resolve_user_run _ _ _ _ _ H));
                                        cbv zeta;
                                        destruct (truthy
                                                    (get_prop (VObject row)
                                                       "user_id"))
                                          eqn:Huser; simp;
                                        [ activation w
                                        | destruct (truthy
                                                (opt_member
                                                   (get_prop
                                                      (get_prop reply "data")
                                                      "meta")
                                                   "pending_user_data"))
                                              eqn:Hpending; simp;
                                            [ destruct (createUser w _)
                                                as [rejection
                                                   | account [refusal | ]]
                                                   eqn:Haccount; simp;
                                              [ | | destruct (nullish account)
                                                      eqn:Hno_data; simp;
                                                    [ | destruct
                                                          (nullish
                                                             (get_prop account
                                                                "user"))
                                                          eqn:Hno_user; simp;
                                                        [ | activation w ] ]
                                              ]
                                            | ]
                                        ]
                                    ]
                              | ]
                          ]
                      ]
                  ]
              ]
          ] ]
        | ]
      | ]
  ];
  simp.

(** The events of a run that a hypothesis names. *)
Ltac this_event H :=
  locate H; try discriminate H; injection H; clear H; intros; subst.

Ltac failure_body := eexists; repeat split; reflexivity.

Lemma ends_with_one (e : event) : ends_with [e] e.
Proof. exists []. reflexivity. Qed.

Lemma ends_with_cons (x : event) (t : list event) (e : event) :
  ends_with t e -> ends_with (x :: t) e.
Proof. intros [before ->]. exists (x :: before). reflexivity. Qed.

Lemma ends_with_app (t t' : list event) (e : event) :
  ends_with t' e -> ends_with (t ++ t') e.
Proof.
  intros [before ->]. exists (t ++ before)%list. now rewrite app_assoc.
Qed.

Ltac at_the_end :=
  repeat first [ apply ends_with_one
               | apply ends_with_cons
               | apply ends_with_app ].

Lemma same_run_refl {A : Type} (m : M A) : same_run m m.
Proof. split; reflexivity. Qed.

Lemma same_run_bind {A B : Type} (m m' : M A) (f : A -> M B) :
  same_run m m' -> same_run (bind m f) (bind m' f).
Proof.
  destruct m as [t r], m' as [t' r']. unfold same_run. cbn [fst snd].
  intros [Ht <-]. destruct r as [a|err]; cbn [bind].
  - destruct (f a) as [u s]. cbn [fst snd]. split; [|reflexivity].
    now rewrite !filter_app, Ht.
  - cbn [fst snd]. split; [assumption|reflexivity].
Qed.

Lemma same_run_bind_k {A B : Type} (m : M A) (f f' : A -> M B) :
  (forall a, same_run (f a) (f' a)) -> same_run (bind m f) (bind m f').
Proof.
  destruct m as [t [a|err]]; intro H; cbn [bind]; [|apply same_run_refl].
  destruct (H a) as [Ht Hr]. destruct (f a) as [u s], (f' a) as [u' s'].
  unfold same_run. cbn [fst snd] in *. split; [|assumption].
  now rewrite !filter_app, Ht.
Qed.

Lemma same_run_try_catch {A : Type} (m m' : M A) (h : exn -> M A) :
  same_run m m' -> same_run (try_catch m h) (try_catch m' h).
Proof.
  destruct m as [t r], m' as [t' r']. unfold same_run. cbn [fst snd].
  intros [Ht <-]. destruct r as [a|err]; cbn [try_catch].
  - cbn [fst snd]. split; [assumption|reflexivity].
  - destruct (h err) as [u s]. cbn [fst snd]. split; [|reflexivity].
    now rewrite !filter_app, Ht.
Qed.

Lemma success_response_members (subscription_id userId plan : value)
  (trial : bool) :
  let resp := success_response subscription_id userId plan trial in
  body_member resp "success" = VBool true /\
  body_member resp "plan_type" = written_member plan /\
  body_member resp "is_trial" = VBool trial.
Proof.
  unfold body_member, success_response, json_object, written_member.
  cbn [body JSON_stringify unwritten].
  destruct (unwritten subscription_id), (unwritten userId),
    (unwritten plan); repeat split; reflexivity.
Qed.


(** ** The scenarios of the specification *)

(** The subscription has its user, its plan is professional, and the payment
    has no trial flag: success, [is_trial] false, the profile is active and
    the fee rate recorded is 0.03. *)
Example scenario_returning_customer :
  outcome_of Sample.renewal Sample.callback
  = Returned (success_response (VString "sub-1") (VString "user-1")
                (VString "professional") false) /\
  written (trace_of Sample.renewal Sample.callback) "profiles"
    (fun patch => get_prop patch "subscription_status" = VString "active") /\
  written (trace_of Sample.renewal Sample.callback) "transactions"
    (fun record => get_prop record "plan_fee_rate" = VNumber 0.03).
Proof.
  split; [reflexivity|].
  split; is_written_in_sample; reflexivity.
Qed.

(** The subscription has no user, the payment carries pending user data and
    the trial flag, and its plan is starter: an account is created, the
    notification speaks of the trial, and the fee rate recorded is 0.05. *)
Example scenario_new_customer_on_trial :
  (exists attributes,
     In (CreateUser attributes Sample.new_account)
        (trace_of Sample.trial_signup Sample.callback)) /\
  written (trace_of Sample.trial_signup Sample.callback) "notifications"
    (fun record =>
       get_prop record "message"
       = VString "Your starter plan trial has started! You have 7 days to try all features.") /\
  written (trace_of Sample.trial_signup Sample.callback) "transactions"
    (fun record => get_prop record "plan_fee_rate" = VNumber 0.05).
Proof.
  split; [eexists; in_sample_trace|].
  split; is_written_in_sample; reflexivity.
Qed.

(** A plan type the table does not list. *)
Example scenario_unknown_plan : getPlanFeeRate "gold" = VNumber 0.05.
Proof. reflexivity. Qed.

(** Without the URL of the datastore, [createClient] throws before any call
    is made. *)
Example scenario_missing_configuration :
  fails_with (outcome_of Edge.without_configuration Sample.callback)
    "supabaseUrl is required." /\
  Forall (fun e => is_external_call e = false)
    (trace_of Edge.without_configuration Sample.callback).
Proof.
  split; [eexists; repeat split; reflexivity | vm_compute; repeat constructor].
Qed.

(** The conversion of an array to a string joins its elements; it throws for
    an object that has a [toString] member. *)
Example to_text_of_an_array :
  to_text Sample.renewal
    (VArray [VString "a"; VNull; VArray [VBool true; VObject []]])
  = Returned "a,,true,[object Object]" /\
  to_text Sample.renewal (VArray [VString "a"; Edge.plan_not_a_name])
  = Thrown TypeError_convert.
Proof. split; reflexivity. Qed.

(** ** The properties of the specification *)

(** Where the answer of the gateway has an overall status other than
    'success', or a payment whose status is other than 'successful', the
    handler answers with the failure response whose detail is "Payment
    verification failed", and the invocation makes no write to the
    datastore. *)
Lemma payment_verification_failed (w : World) (req : Request)
  (url authorization : string) (answer : value) :
  In (Fetch url authorization (FetchJson answer)) (trace_of w req) ->
  reports_failure answer ->
  fails_with (outcome_of w req) "Payment verification failed" /\
  Forall (fun e => is_datastore_write e = false) (trace_of w req).
Proof.
  handler_runs w req; intros Hin Hrf; apply reports_failure_iff in Hrf;
    this_event Hin;
    try (destruct Hrf as [? [? | [? ?]]]; congruence).
  all: split; [failure_body | footprint].
Qed.

(** C1.  The handler does not answer "Payment verification failed" for
    every answer of the gateway that fails to report a successful payment:
    for the answer [{ status: 'success', data: null }], which has no
    transaction status, reading [data.status] throws, and the detail of the
    failure response is the message of that TypeError.  The invocation
    still makes no write to the datastore. *)
Theorem C1_answer_without_transaction_status :
  In (Fetch Sample.url Sample.authorization
        (FetchJson Edge.success_without_data))
     (trace_of Edge.answers_without_data Sample.callback) /\
  overall_status Edge.success_without_data = Some (VString "success") /\
  transaction_status Edge.success_without_data = None /\
  ~ verified_payment Edge.success_without_data /\
  fails_with (outcome_of Edge.answers_without_data Sample.callback)
    "Cannot read properties of null (reading 'status')" /\
  ~ fails_with (outcome_of Edge.answers_without_data Sample.callback)
      "Payment verification failed" /\
  Forall (fun e => is_datastore_write e = false)
    (trace_of Edge.answers_without_data Sample.callback).
Proof.
  split; [in_sample_trace|]. split; [reflexivity|]. split; [reflexivity|].
  split; [intros [_ H]; discriminate H|].
  split; [eexists; repeat split; reflexivity|].
  split.
  - intros (resp & Hout & _ & _ & Hdetail). vm_compute in Hout.
    injection Hout as <-. discriminate Hdetail.
  - vm_compute. repeat constructor.
Qed.

(** C2.  Whenever the update of the subscription reports an error, the
    handler answers with the failure response (detail "Failed to update
    subscription"); the invocation makes no write to the profiles, the
    transactions or the notifications; and after the failed update it does
    nothing but write to the console, so that nothing done before is undone:
    an account created earlier in the invocation lies before the update, and
    no call follows it. *)
Theorem C2_subscription_update_error_is_fatal (w : World) (req : Request)
  (patch : value) (column : string) (key : value) (err : service_error) :
  In (Update "subscriptions" patch column key (Some err)) (trace_of w req) ->
  fails_with (outcome_of w req) "Failed to update subscription" /\
  Forall (fun e => writes_to "profiles" e = false /\
                   writes_to "transactions" e = false /\
                   writes_to "notifications" e = false) (trace_of w req) /\
  exists before after,
    trace_of w req
    = (before ++ Update "subscriptions" patch column key (Some err) :: after)%list
    /\ Forall (fun e => is_console e = true) after
    /\ forall attributes account,
         In (CreateUser attributes account) (trace_of w req) ->
         In (CreateUser attributes account) before.
Proof.
  handler_runs w req; intros Hin; this_event Hin.
  all: split; [failure_body|]; split; [footprint|].
  all: lazymatch goal with
       | |- exists before after,
              (?a :: ?b :: ?c :: ?d :: ?e :: ?f :: Update _ _ _ _ _ :: ?rest)
              = _ /\ _ =>
           exists [a; b; c; d; e; f], rest
       | |- exists before after,
              (?a :: ?b :: ?c :: ?d :: ?e :: ?f :: ?g :: ?h
               :: Update _ _ _ _ _ :: ?rest) = _ /\ _ =>
           exists [a; b; c; d; e; f; g; h], rest
       end.
  all: split; [reflexivity|]; split; [footprint|].
  all: intros attributes created Hc; locate Hc; try discriminate Hc.
  injection Hc as <- <-. do 5 right. left. reflexivity.
Qed.

Lemma C2_witness :
  In (Update "subscriptions"
        (subscription_patch (VString "user-9") (VString "4975363")
           Sample.stamp)
        "id" (VString "sub-1") (Some Sample.refused))
     (trace_of Sample.activation_refused Sample.callback) /\
  fails_with (outcome_of Sample.activation_refused Sample.callback)
    "Failed to update subscription" /\
  Forall (fun e => writes_to "profiles" e = false /\
                   writes_to "transactions" e = false /\
                   writes_to "notifications" e = false)
    (trace_of Sample.activation_refused Sample.callback) /\
  exists before after,
    trace_of Sample.activation_refused Sample.callback
    = (before
       ++ Update "subscriptions"
            (subscription_patch (VString "user-9") (VString "4975363")
               Sample.stamp)
            "id" (VString "sub-1") (Some Sample.refused) :: after)%list
    /\ Forall (fun e => is_console e = true) after
    /\ forall attributes account,
         In (CreateUser attributes account)
            (trace_of Sample.activation_refused Sample.callback) ->
         In (CreateUser attributes account) before.
Proof.
  assert (Hin : In (Update "subscriptions"
                      (subscription_patch (VString "user-9")
                         (VString "4975363") Sample.stamp)
                      "id" (VString "sub-1") (Some Sample.refused))
                   (trace_of Sample.activation_refused Sample.callback))
    by in_sample_trace.
  exact (conj Hin
    (C2_subscription_update_error_is_fatal _ _ _ _ _ _ Hin)).
Defined.
(** Once the subscription is updated, and where the plan type can be
    converted to a string, the invocation goes on to update the profile,
    insert the transaction and insert the notification, in that order and
    whatever each of them reports: an error reported by one of them leaves
    one line on the console and nothing else, the later writes follow, and
    the handler answers with status 200 and a body in which [success] is
    [true]. *)
Lemma best_effort_writes_do_not_abort (w : World) (req : Request)
  (patch : value) (column : string) (key : value)
  (url authorization : string) (answer : value)
  (by_column : string) (reference : value) (stored : list (string * value))
  (plan_text : string) :
  In (Update "subscriptions" patch column key None) (trace_of w req) ->
  In (Fetch url authorization (FetchJson answer)) (trace_of w req) ->
  In (Select "subscriptions" by_column reference (SelectRows [stored]))
     (trace_of w req) ->
  to_text w (js_or (payment_plan_type (get_prop answer "data"))
               (get_prop (VObject stored) "plan_type"))
  = Returned plan_text ->
  exists before stamp profile user profile_error
         transaction transaction_error notification notification_error,
    trace_of w req
    = (before
       ++ [ Update "subscriptions" patch column key None;
            ReadClock 1 stamp;
            Update "profiles" profile "id" user profile_error ]
       ++ error_log "Failed to update profile:" profile_error
       ++ [ Insert "transactions" transaction transaction_error ]
       ++ error_log "Failed to create transaction record:" transaction_error
       ++ [ Insert "notifications" notification notification_error ]
       ++ error_log "Failed to create notification:" notification_error
       ++ [ ConsoleLog "Subscription verification completed successfully" [] ])%list
    /\ exists resp,
         outcome_of w req = Returned resp /\ status resp = 200 /\
         body_member resp "success" = VBool true.
Proof.
  handler_runs w req; intros Hin Hfetch Hsel Hname;
    this_event Hin; this_event Hfetch; this_event Hsel; try congruence.
  all: lazymatch goal with
       | |- exists before, _ =>
           lazymatch goal with
           | |- context [?a :: ?b :: ?c :: ?d :: ?e :: ?f :: ?g :: ?h
                         :: Update "subscriptions" _ _ _ _ :: _] =>
               exists [a; b; c; d; e; f; g; h]
           | |- context [?a :: ?b :: ?c :: ?d :: ?e :: ?f
                         :: Update "subscriptions" _ _ _ _ :: _] =>
               exists [a; b; c; d; e; f]
           end
       end.
  all: match goal with
       | |- context [ReadClock 1 ?s :: Update "profiles" ?p "id" ?u ?pe
                     :: _ ++ Insert "transactions" ?t ?te
                     :: _ ++ Insert "notifications" ?n ?ne :: _] =>
           exists s, p, u, pe, t, te, n, ne
       end.
  all: split;
    [ cbn [app error_log]; repeat (rewrite <- app_assoc; cbn [app]);
      reflexivity
    | eexists; repeat split; reflexivity ].
Qed.

(** C3.  An invocation in which the subscription update succeeds can still
    be aborted after it: for a verified payment whose [meta.plan_type] is
    the object [{ toString: 1 }], the subscription is updated, the update of
    the profile reports an error, and then the call
    [getPlanFeeRate(planType)] throws while it converts the plan type to a
    member name.  The transaction and the notification are not inserted,
    and the handler answers with the failure response, not with success. *)
Theorem C3_abort_after_the_subscription_update :
  (exists patch key,
     In (Update "subscriptions" patch "id" key None)
        (trace_of Edge.plan_cannot_be_named Sample.callback)) /\
  (exists patch key,
     In (Update "profiles" patch "id" key (Some Sample.refused))
        (trace_of Edge.plan_cannot_be_named Sample.callback)) /\
  Forall (fun e => writes_to "transactions" e = false /\
                   writes_to "notifications" e = false)
    (trace_of Edge.plan_cannot_be_named Sample.callback) /\
  to_text Edge.plan_cannot_be_named Edge.plan_not_a_name
  = Thrown TypeError_convert /\
  fails_with (outcome_of Edge.plan_cannot_be_named Sample.callback)
    "Cannot convert object to primitive value" /\
  forall resp,
    outcome_of Edge.plan_cannot_be_named Sample.callback = Returned resp ->
    status resp = 500 /\ body_member resp "success" <> VBool true.
Proof.
  split; [do 2 eexists; in_sample_trace|].
  split; [do 2 eexists; in_sample_trace|].
  split; [vm_compute; repeat constructor|].
  split; [reflexivity|].
  split; [eexists; repeat split; reflexivity|].
  intros resp Hout. vm_compute in Hout. injection Hout as <-.
  split; [reflexivity | discriminate].
Qed.

(** The table of [getPlanFeeRate]: the three plans it lists, and 0.05 for
    every other name that is not a member of [Object.prototype]. *)
Lemma getPlanFeeRate_table (planType : string) :
  getPlanFeeRate "starter" = VNumber 0.05 /\
  getPlanFeeRate "professional" = VNumber 0.03 /\
  getPlanFeeRate "enterprise" = VNumber 0.01 /\
  (planType <> "starter" -> planType <> "professional" ->
   planType <> "enterprise" ->
   ~ In planType object_prototype_members ->
   getPlanFeeRate planType = VNumber 0.05).
Proof.
  repeat split; try reflexivity.
  intros H1 H2 H3 Hp. unfold getPlanFeeRate, feeRates, get_prop, own_member.
  destruct (String.eqb_spec "starter" planType); [congruence|].
  destruct (String.eqb_spec "professional" planType); [congruence|].
  destruct (String.eqb_spec "enterprise" planType); [congruence|].
  unfold inherited_member.
  destruct (existsb (String.eqb planType) object_prototype_members) eqn:E.
  - apply existsb_exists in E as (x & Hx & Ex).
    apply String.eqb_eq in Ex. subst x. contradiction.
  - reflexivity.
Qed.

(** C4.  The fee rate is not 0.05 for every plan type outside the table: for
    the plan type "constructor", a name every object inherits, the lookup
    [feeRates[planType]] finds the inherited function, which is truthy, and
    [getPlanFeeRate] returns it in place of the default; the transaction
    record of a payment for that plan carries it as its fee rate. *)
Theorem C4_fee_rate_of_an_inherited_name :
  getPlanFeeRate "constructor" = VNative "constructor" /\
  getPlanFeeRate "constructor" <> VNumber 0.05 /\
  written (trace_of (Sample.plan_named "constructor") Sample.callback)
    "transactions"
    (fun record => get_prop record "plan_fee_rate" = VNative "constructor").
Proof.
  split; [reflexivity|]. split; [intro H; discriminate H|].
  is_written_in_sample. reflexivity.
Qed.

(** C5.  Whenever the lookup of the subscription by transaction reference,
    which the invocation makes once the payment is verified, finds no row,
    several rows, or fails, the handler answers with the failure response
    whose detail is "Subscription not found", and the invocation makes no
    write: neither to the datastore nor to the authentication service. *)
Theorem C5_subscription_not_found (w : World) (req : Request)
  (column : string) (key : value) (found : select_outcome) :
  In (Select "subscriptions" column key found) (trace_of w req) ->
  not_one_row found ->
  fails_with (outcome_of w req) "Subscription not found" /\
  Forall (fun e => is_datastore_write e = false /\ is_create_user e = false)
    (trace_of w req).
Proof.
  handler_runs w req; intros Hin Hnot; this_event Hin;
    try (now contradiction Hnot).
  all: split; [failure_body | footprint].
Qed.

Lemma C5_witness :
  In (Select "subscriptions" "flutterwave_tx_ref" (VString "ref-1")
        (SelectRows []))
     (trace_of Sample.no_subscription Sample.callback) /\
  not_one_row (SelectRows []) /\
  fails_with (outcome_of Sample.no_subscription Sample.callback)
    "Subscription not found" /\
  Forall (fun e => is_datastore_write e = false /\ is_create_user e = false)
    (trace_of Sample.no_subscription Sample.callback).
Proof.
  assert (Hin : In (Select "subscriptions" "flutterwave_tx_ref"
                      (VString "ref-1") (SelectRows []))
                   (trace_of Sample.no_subscription Sample.callback))
    by in_sample_trace.
  assert (Hnot : not_one_row (SelectRows [])) by (simpl; discriminate).
  exact (conj Hin (conj Hnot (C5_subscription_not_found _ _ _ _ _ Hin Hnot))).
Defined.



Lemma strict_eq_true_iff (v : value) :
  strict_eq_true v = true <-> v = VBool true.
Proof.
  destruct v as [ | | [ | ] | | | | | ]; simpl; split; congruence.
Qed.

(** C7.  Whenever the handler answers with success, the invocation updates
    the profile, and the trial flag of the verified payment decides what it
    writes: when [meta.is_trial] of the payment is [true], every update of
    the profile sets [subscription_status] to "trial" and [is_trial] in the
    body of the response is [true]; when it is anything else, or absent,
    every update of the profile sets "active" and [is_trial] in the body is
    [false]. *)
Theorem C7_trial_flag_in_profile_and_response (w : World) (req : Request)
  (resp : Response) (url authorization : string) (answer : value) :
  In (Fetch url authorization (FetchJson answer)) (trace_of w req) ->
  outcome_of w req = Returned resp ->
  body_member resp "success" = VBool true ->
  let flag := opt_member (get_prop (get_prop answer "data") "meta")
                "is_trial" in
  (flag = VBool true ->
   written (trace_of w req) "profiles"
     (fun patch => get_prop patch "subscription_status" = VString "trial") /\
   body_member resp "is_trial" = VBool true) /\
  (flag <> VBool true ->
   written (trace_of w req) "profiles"
     (fun patch => get_prop patch "subscription_status" = VString "active") /\
   body_member resp "is_trial" = VBool false).
Proof.
  handler_runs w req; intros Hin [= <-] Hs; try discriminate Hs;
    this_event Hin.
  all: cbv zeta; unfold trial_flag.
  all: destruct (strict_eq_true _) eqn:Hflag.
  all: split; intro Hset.
  all: try (apply strict_eq_true_iff in Hflag; contradiction).
  all: try (apply strict_eq_true_iff in Hset; congruence).
  all: split; [is_written; reflexivity | apply success_response_members].
Qed.

Lemma C7_witness :
  In (Fetch Sample.url Sample.authorization
        (FetchJson (Sample.verified (Sample.trial_meta "starter"))))
     (trace_of Sample.trial_signup Sample.callback) /\
  outcome_of Sample.trial_signup Sample.callback
  = Returned (success_response (VString "sub-1") (VString "user-9")
                (VString "starter") true) /\
  body_member (success_response (VString "sub-1") (VString "user-9")
                 (VString "starter") true) "success" = VBool true /\
  opt_member (get_prop (get_prop (Sample.verified (Sample.trial_meta "starter"))
                          "data") "meta") "is_trial" = VBool true /\
  written (trace_of Sample.trial_signup Sample.callback) "profiles"
    (fun patch => get_prop patch "subscription_status" = VString "trial") /\
  body_member (success_response (VString "sub-1") (VString "user-9")
                 (VString "starter") true) "is_trial" = VBool true.
Proof.
  assert (Hin : In (Fetch Sample.url Sample.authorization
                      (FetchJson (Sample.verified
                                    (Sample.trial_meta "starter"))))
                   (trace_of Sample.trial_signup Sample.callback))
    by in_sample_trace.
  assert (Hout : outcome_of Sample.trial_signup Sample.callback
                 = Returned (success_response (VString "sub-1")
                               (VString "user-9") (VString "starter") true))
    by reflexivity.
  assert (Hs : body_member (success_response (VString "sub-1")
                              (VString "user-9") (VString "starter") true)
                 "success" = VBool true)
    by reflexivity.
  exact (conj Hin (conj Hout (conj Hs (conj eq_refl
    (proj1 (C7_trial_flag_in_profile_and_response _ _ _ _ _ _ Hin Hout Hs)
       eq_refl))))).
Defined.

(** C8, as the specification states it, fails: a request without [tx_ref]
    whose method is POST is answered by the method check with status 405 and
    the text "Method not allowed", not with the failure response. *)
Lemma C8_counterexample :
  searchParams_get (query (Sample.without_reference "POST")) "tx_ref" = None /\
  outcome_of Sample.no_subscription (Sample.without_reference "POST")
  = Returned {| status := 405; headers := corsHeaders;
                body := TextBody "Method not allowed" |} /\
  ~ fails_with
      (outcome_of Sample.no_subscription (Sample.without_reference "POST"))
      "Missing transaction reference".
Proof.
  split; [reflexivity|]. split; [reflexivity|].
  intros (resp & Hout & Hstatus & _). vm_compute in Hout.
  injection Hout as <-. discriminate Hstatus.
Qed.

(** C8, amended.  Every GET request whose query string has no [tx_ref]
    parameter is answered with the failure response whose detail is "Missing
    transaction reference", and the invocation calls neither the gateway, nor
    the datastore, nor the authentication service. *)
Theorem C8_missing_reference_on_get (w : World) (req : Request) :
  method req = "GET" ->
  searchParams_get (query req) "tx_ref" = None ->
  fails_with (outcome_of w req) "Missing transaction reference" /\
  Forall (fun e => is_external_call e = false) (trace_of w req).
Proof.
  intros Hget Hnone. unfold trace_of, outcome_of, handler, try_block.
  rewrite Hget, Hnone. simp. split.
  - eexists. repeat split; reflexivity.
  - footprint.
Qed.

Lemma C8_witness :
  method (Sample.without_reference "GET") = "GET" /\
  searchParams_get (query (Sample.without_reference "GET")) "tx_ref" = None /\
  fails_with
    (outcome_of Sample.no_subscription (Sample.without_reference "GET"))
    "Missing transaction reference" /\
  Forall (fun e => is_external_call e = false)
    (trace_of Sample.no_subscription (Sample.without_reference "GET")).
Proof.
  split; [reflexivity|]. split; [reflexivity|].
  apply (C8_missing_reference_on_get Sample.no_subscription
           (Sample.without_reference "GET")); reflexivity.
Defined.

(** C9.  The handler answers every request, and every response it gives
    (to a preflight, to a method it rejects, on success and on failure)
    carries the two cross-origin headers, Access-Control-Allow-Origin and
    Access-Control-Allow-Headers. *)
Theorem C9_cors_headers_on_every_response (w : World) (req : Request) :
  exists resp, outcome_of w req = Returned resp /\ has_cors_headers resp.
Proof.
  handler_runs w req; eexists; (split; [reflexivity|]);
    unfold has_cors_headers; simpl; tauto.
Qed.

(** C10, as the specification states it, fails: for a verified payment
    whose [meta.plan_type] is a number that is not finite (the gateway's
    [1e400], read as [Infinity]), that truthy value is the plan type, the
    handler answers with success, and [plan_type] in the body of the
    response is [null]. *)
Lemma C10_counterexample :
  payment_plan_type (get_prop Edge.payment_out_of_range "data")
  = VNumber infinity /\
  truthy (VNumber infinity) = true /\
  exists resp,
    outcome_of Edge.plan_out_of_range Sample.callback = Returned resp /\
    body_member resp "success" = VBool true /\
    body_member resp "plan_type" = VNull /\
    body_member resp "plan_type"
    <> payment_plan_type (get_prop Edge.payment_out_of_range "data").
Proof.
  split; [reflexivity|]. split; [reflexivity|].
  eexists. split; [reflexivity|]. split; [reflexivity|].
  split; [reflexivity|]. intro H. discriminate H.
Qed.

(** C10, amended.  Whenever the handler answers with success, one plan type
    is used throughout: [plan_type] of the payment metadata when that member
    is truthy, whatever the subscription row says, and otherwise [plan_type]
    of the subscription row.  Every update of the profile sets it, every
    transaction inserted carries the fee rate looked up for its name, every
    notification inserted names it in its metadata and in its message, and
    the body of the response gives it as [JSON.stringify] writes it; each of
    the three writes is made. *)
Theorem C10_plan_type_precedence (w : World) (req : Request) (resp : Response) :
  outcome_of w req = Returned resp ->
  body_member resp "success" = VBool true ->
  exists url authorization answer column key stored name,
    In (Fetch url authorization (FetchJson answer)) (trace_of w req) /\
    In (Select "subscriptions" column key (SelectRows [stored]))
       (trace_of w req) /\
    let from_payment := payment_plan_type (get_prop answer "data") in
    let plan := if truthy from_payment then from_payment
                else get_prop (VObject stored) "plan_type" in
    to_text w plan = Returned name /\
    written (trace_of w req) "profiles"
      (fun patch => get_prop patch "plan_type" = plan) /\
    written (trace_of w req) "transactions"
      (fun record => get_prop record "plan_fee_rate" = getPlanFeeRate name) /\
    written (trace_of w req) "notifications"
      (fun record =>
         get_prop (get_prop record "metadata") "plan_type" = plan /\
         exists wording,
           get_prop record "message"
           = VString ("Your " ++ name ++ wording)) /\
    body_member resp "plan_type" = written_member plan.
Proof.
  handler_runs w req; intros [= <-] Hs; try discriminate Hs.
  all: do 7 eexists.
  all: split; [right; left; reflexivity|].
  all: split; [do 3 right; left; reflexivity|].
  all: cbv zeta; unfold js_or in *.
  all: split; [exact Hplan_name|].
  all: split; [is_written; reflexivity|].
  all: split; [is_written; reflexivity|].
  all: split; [|apply success_response_members].
  all: is_written; (split; [reflexivity|]).
  all: unfold payload, notification_record; destruct (trial_flag _);
    eexists; reflexivity.
Qed.

Lemma C10_witness :
  outcome_of Sample.trial_signup Sample.callback
  = Returned (success_response (VString "sub-1") (VString "user-9")
                (VString "starter") true) /\
  body_member (success_response (VString "sub-1") (VString "user-9")
                 (VString "starter") true) "success" = VBool true /\
  exists url authorization answer column key stored name,
    In (Fetch url authorization (FetchJson answer))
       (trace_of Sample.trial_signup Sample.callback) /\
    In (Select "subscriptions" column key (SelectRows [stored]))
       (trace_of Sample.trial_signup Sample.callback) /\
    let from_payment := payment_plan_type (get_prop answer "data") in
    let plan := if truthy from_payment then from_payment
                else get_prop (VObject stored) "plan_type" in
    to_text Sample.trial_signup plan = Returned name /\
    written (trace_of Sample.trial_signup Sample.callback) "profiles"
      (fun patch => get_prop patch "plan_type" = plan) /\
    written (trace_of Sample.trial_signup Sample.callback) "transactions"
      (fun record => get_prop record "plan_fee_rate" = getPlanFeeRate name) /\
    written (trace_of Sample.trial_signup Sample.callback) "notifications"
      (fun record =>
         get_prop (get_prop record "metadata") "plan_type" = plan /\
         exists wording,
           get_prop record "message"
           = VString ("Your " ++ name ++ wording)) /\
    body_member (success_response (VString "sub-1") (VString "user-9")
                   (VString "starter") true) "plan_type"
    = written_member plan.
Proof.
  assert (Hout : outcome_of Sample.trial_signup Sample.callback
                 = Returned (success_response (VString "sub-1")
                               (VString "user-9") (VString "starter") true))
    by reflexivity.
  assert (Hs : body_member (success_response (VString "sub-1")
                              (VString "user-9") (VString "starter") true)
                 "success" = VBool true)
    by reflexivity.
  exact (conj Hout (conj Hs (C10_plan_type_precedence _ _ _ Hout Hs))).
Defined.

(** ** More properties of the handler *)

(** X1.  An invocation calls the gateway, the datastore or the
    authentication service only for a GET request whose [tx_ref] parameter
    is present and not empty. *)
Theorem X1_calls_need_get_and_reference (w : World) (req : Request)
  (e : event) :
  In e (trace_of w req) ->
  is_external_call e = true ->
  method req = "GET" /\
  exists reference,
    searchParams_get (query req) "tx_ref" = Some reference /\
    reference <> "".
Proof.
  handler_runs w req; intros Hin Hcall;
    first [ solve [ split; [ now apply String.eqb_eq
                           | now apply truthy_param ] ]
          | locate Hin; subst; discriminate Hcall ].
Qed.

Lemma X1_witness :
  In (Fetch Sample.url Sample.authorization (FetchJson Sample.not_verified))
     (trace_of Sample.unknown_transaction Sample.callback) /\
  is_external_call
    (Fetch Sample.url Sample.authorization (FetchJson Sample.not_verified))
  = true /\
  method Sample.callback = "GET" /\
  exists reference,
    searchParams_get (query Sample.callback) "tx_ref" = Some reference /\
    reference <> "".
Proof.
  assert (Hin : In (Fetch Sample.url Sample.authorization
                      (FetchJson Sample.not_verified))
                   (trace_of Sample.unknown_transaction Sample.callback))
    by in_sample_trace.
  exact (conj Hin (conj eq_refl
    (X1_calls_need_get_and_reference _ _ _ Hin eq_refl))).
Defined.

(** X2.  A GET request whose [tx_ref] parameter is present and empty is
    treated as one without reference: the failure response with detail
    "Missing transaction reference", and no call. *)
Theorem X2_empty_reference_is_missing (w : World) (req : Request) :
  method req = "GET" ->
  searchParams_get (query req) "tx_ref" = Some "" ->
  fails_with (outcome_of w req) "Missing transaction reference" /\
  Forall (fun e => is_external_call e = false) (trace_of w req).
Proof.
  intros Hget Hempty. unfold trace_of, outcome_of, handler, try_block.
  rewrite Hget, Hempty. simp. split.
  - eexists. repeat split; reflexivity.
  - footprint.
Qed.

Lemma X2_witness :
  method Edge.empty_reference = "GET" /\
  searchParams_get (query Edge.empty_reference) "tx_ref" = Some "" /\
  fails_with (outcome_of Sample.renewal Edge.empty_reference)
    "Missing transaction reference" /\
  Forall (fun e => is_external_call e = false)
    (trace_of Sample.renewal Edge.empty_reference).
Proof.
  split; [reflexivity|]. split; [reflexivity|].
  apply (X2_empty_reference_is_missing Sample.renewal Edge.empty_reference);
    reflexivity.
Defined.

(** X3.  When the call to the gateway is rejected (the gateway cannot be
    reached, or its answer is not JSON), the handler answers with the failure
    response whose detail is the message of the rejection, and the
    invocation neither reads nor writes the datastore and creates no
    account. *)
Theorem X3_gateway_rejection (w : World) (req : Request)
  (url authorization : string) (err : exn) :
  In (Fetch url authorization (FetchRejected err)) (trace_of w req) ->
  fails_with (outcome_of w req) (message err) /\
  Forall (fun e => is_datastore_access e = false /\ is_create_user e = false)
    (trace_of w req).
Proof.
  handler_runs w req; intros Hin; locate Hin; try discriminate Hin.
  injection Hin as _ _ ->. split.
  - eexists. repeat split; reflexivity.
  - footprint.
Qed.

Lemma X3_witness :
  In (Fetch Sample.url Sample.authorization
        (FetchRejected Edge.unreachable_error))
     (trace_of Edge.unreachable Sample.callback) /\
  fails_with (outcome_of Edge.unreachable Sample.callback)
    "error sending request" /\
  Forall (fun e => is_datastore_access e = false /\ is_create_user e = false)
    (trace_of Edge.unreachable Sample.callback).
Proof.
  assert (Hin : In (Fetch Sample.url Sample.authorization
                      (FetchRejected Edge.unreachable_error))
                   (trace_of Edge.unreachable Sample.callback))
    by in_sample_trace.
  exact (conj Hin (X3_gateway_rejection _ _ _ _ _ Hin)).
Defined.

(** X4.  The transaction id is not required: for a GET request with a
    reference and without [transaction_id], once the client of the datastore
    is made, the gateway is called, with "null" in place of the id in the
    URL. *)
Theorem X4_missing_transaction_id (w : World) (req : Request)
  (reference : string) :
  method req = "GET" ->
  searchParams_get (query req) "tx_ref" = Some reference ->
  reference <> "" ->
  client_error w = None ->
  searchParams_get (query req) "transaction_id" = None ->
  exists answer,
    In (Fetch "https://api.flutterwave.com/v3/transactions/null/verify"
          (authorization_header w) answer)
       (trace_of w req).
Proof.
  handler_runs w req; intros Hmethod Hreference Hne Hmade Hid.
  all: try (rewrite Hmethod in *; discriminate).
  all: try (rewrite Hreference in Href; simpl in Href;
            destruct (String.eqb_spec reference ""); [contradiction|];
            discriminate Href).
  all: try congruence.
  all: rewrite Hid; eexists; unfold verification_url; simpl;
    right; left; reflexivity.
Qed.

Lemma X4_witness :
  method Edge.without_transaction_id = "GET" /\
  searchParams_get (query Edge.without_transaction_id) "tx_ref"
  = Some "ref-1" /\
  "ref-1" <> "" /\
  client_error Sample.renewal = None /\
  searchParams_get (query Edge.without_transaction_id) "transaction_id"
  = None /\
  exists answer,
    In (Fetch "https://api.flutterwave.com/v3/transactions/null/verify"
          (authorization_header Sample.renewal) answer)
       (trace_of Sample.renewal Edge.without_transaction_id).
Proof.
  assert (Hne : "ref-1" <> "") by discriminate.
  exact (conj eq_refl (conj eq_refl (conj Hne (conj eq_refl (conj eq_refl
    (X4_missing_transaction_id Sample.renewal Edge.without_transaction_id
       "ref-1" eq_refl eq_refl Hne eq_refl eq_refl)))))).
Defined.

(** X5.  An answer of the gateway that reports the overall status 'success'
    and whose [data] is [null] or absent is not reported as a failed
    verification: reading the status of the payment throws, the handler
    answers with the failure response whose detail is the message of that
    TypeError, and the invocation neither reads nor writes the datastore
    and creates no account. *)
Theorem X5_success_without_payment_data (w : World) (req : Request)
  (url authorization : string) (answer : value) :
  In (Fetch url authorization (FetchJson answer)) (trace_of w req) ->
  overall_status answer = Some (VString "success") ->
  nullish (get_prop answer "data") = true ->
  fails_with (outcome_of w req)
    (message (TypeError_read (get_prop answer "data") "status")) /\
  message (TypeError_read (get_prop answer "data") "status")
  <> "Payment verification failed" /\
  Forall (fun e => is_datastore_access e = false /\ is_create_user e = false)
    (trace_of w req).
Proof.
  handler_runs w req; intros Hin Hstatus Hnodata; locate Hin;
    try discriminate Hin.
  all: injection Hin as _ _ <-.
  all: unfold overall_status, read in Hstatus.
  all: try (rewrite Hnull in Hstatus; discriminate Hstatus).
  all: rewrite Hnull in Hstatus; injection Hstatus as Hstatus.
  all: try (rewrite Hstatus in Hoverall; discriminate Hoverall).
  all: try congruence.
  split; [eexists; repeat split; reflexivity|].
  split; [|footprint].
  destruct (get_prop reply "data"); discriminate.
Qed.

Lemma X5_witness :
  In (Fetch Sample.url Sample.authorization
        (FetchJson Edge.success_without_data))
     (trace_of Edge.answers_without_data Sample.callback) /\
  overall_status Edge.success_without_data = Some (VString "success") /\
  nullish (get_prop Edge.success_without_data "data") = true /\
  fails_with (outcome_of Edge.answers_without_data Sample.callback)
    (message (TypeError_read (get_prop Edge.success_without_data "data")
                "status")) /\
  message (TypeError_read (get_prop Edge.success_without_data "data") "status")
  <> "Payment verification failed" /\
  Forall (fun e => is_datastore_access e = false /\ is_create_user e = false)
    (trace_of Edge.answers_without_data Sample.callback).
Proof.
  assert (Hin : In (Fetch Sample.url Sample.authorization
                      (FetchJson Edge.success_without_data))
                   (trace_of Edge.answers_without_data Sample.callback))
    by in_sample_trace.
  exact (conj Hin (conj eq_refl (conj eq_refl
    (X5_success_without_payment_data _ _ _ _ _ Hin eq_refl eq_refl)))).
Defined.

(** X6.  A verified payment that names no customer: when the subscription
    is found, reading the e-mail address of the customer throws, the handler
    answers with the failure response whose detail is the message of that
    TypeError, and the invocation writes nothing and creates no account. *)
Theorem X6_payment_without_customer (w : World) (req : Request)
  (url authorization : string) (answer : value)
  (column : string) (key : value) (record : list (string * value)) :
  In (Fetch url authorization (FetchJson answer)) (trace_of w req) ->
  verified_payment answer ->
  nullish (get_prop (get_prop answer "data") "customer") = true ->
  In (Select "subscriptions" column key (SelectRows [record]))
     (trace_of w req) ->
  fails_with (outcome_of w req)
    (message (TypeError_read (get_prop (get_prop answer "data") "customer")
                "email")) /\
  Forall (fun e => is_datastore_write e = false /\ is_create_user e = false)
    (trace_of w req).
Proof.
  handler_runs w req; intros Hin Hv Hnone Hsel;
    apply verified_payment_iff in Hv as (V1 & V2 & V3 & V4);
    this_event Hin; try congruence;
    this_event Hsel; try congruence.
  split; [failure_body | footprint].
Qed.

Lemma X6_witness :
  In (Fetch Sample.url Sample.authorization
        (FetchJson Edge.payment_without_customer))
     (trace_of Edge.names_no_customer Sample.callback) /\
  verified_payment Edge.payment_without_customer /\
  nullish (get_prop (get_prop Edge.payment_without_customer "data")
             "customer") = true /\
  In (Select "subscriptions" "flutterwave_tx_ref" (VString "ref-1")
        (SelectRows [Edge.pending_row]))
     (trace_of Edge.names_no_customer Sample.callback) /\
  fails_with (outcome_of Edge.names_no_customer Sample.callback)
    (message (TypeError_read
                (get_prop (get_prop Edge.payment_without_customer "data")
                   "customer") "email")) /\
  Forall (fun e => is_datastore_write e = false /\ is_create_user e = false)
    (trace_of Edge.names_no_customer Sample.callback).
Proof.
  assert (Hin : In (Fetch Sample.url Sample.authorization
                      (FetchJson Edge.payment_without_customer))
                   (trace_of Edge.names_no_customer Sample.callback))
    by in_sample_trace.
  assert (Hsel : In (Select "subscriptions" "flutterwave_tx_ref"
                       (VString "ref-1") (SelectRows [Edge.pending_row]))
                    (trace_of Edge.names_no_customer Sample.callback))
    by in_sample_trace.
  assert (Hv : verified_payment Edge.payment_without_customer)
    by (split; reflexivity).
  exact (conj Hin (conj Hv (conj eq_refl (conj Hsel
    (X6_payment_without_customer _ _ _ _ _ _ _ _ Hin Hv eq_refl Hsel))))).
Defined.

(** X7.  When the subscription found names a user, no account is created,
    and every write of the invocation is made for that user. *)
Theorem X7_user_of_the_subscription (w : World) (req : Request)
  (column : string) (key : value) (record : list (string * value)) :
  In (Select "subscriptions" column key (SelectRows [record]))
     (trace_of w req) ->
  truthy (get_prop (VObject record) "user_id") = true ->
  Forall (fun e => is_create_user e = false) (trace_of w req) /\
  forall e, In e (trace_of w req) -> is_datastore_write e = true ->
            written_for e = Some (get_prop (VObject record) "user_id").
Proof.
  handler_runs w req; intros Hsel Hknown; this_event Hsel; try congruence.
  all: split; [footprint | intros e Hin Hw; locate_write Hin Hw; reflexivity].
Qed.

Lemma X7_witness :
  In (Select "subscriptions" "flutterwave_tx_ref" (VString "ref-1")
        (SelectRows [Sample.subscription_row (VString "user-1")
                       "professional"]))
     (trace_of Sample.renewal Sample.callback) /\
  truthy (get_prop (VObject (Sample.subscription_row (VString "user-1")
                               "professional")) "user_id") = true /\
  Forall (fun e => is_create_user e = false)
    (trace_of Sample.renewal Sample.callback) /\
  forall e, In e (trace_of Sample.renewal Sample.callback) ->
            is_datastore_write e = true ->
            written_for e
            = Some (get_prop (VObject (Sample.subscription_row
                                         (VString "user-1") "professional"))
                      "user_id").
Proof.
  assert (Hsel : In (Select "subscriptions" "flutterwave_tx_ref"
                       (VString "ref-1")
                       (SelectRows [Sample.subscription_row (VString "user-1")
                                      "professional"]))
                    (trace_of Sample.renewal Sample.callback))
    by in_sample_trace.
  exact (conj Hsel (conj eq_refl
    (X7_user_of_the_subscription _ _ _ _ _ Hsel eq_refl))).
Defined.

(** X8.  A verified payment for a subscription that names no user, with no
    pending user data in its metadata: the handler answers with the failure
    response with detail "No user data found", writes nothing and creates
    no account. *)
Theorem X8_no_user_data (w : World) (req : Request)
  (url authorization : string) (answer : value)
  (column : string) (key : value) (record : list (string * value)) :
  In (Fetch url authorization (FetchJson answer)) (trace_of w req) ->
  verified_payment answer ->
  nullish (get_prop (get_prop answer "data") "customer") = false ->
  truthy (opt_member (get_prop (get_prop answer "data") "meta")
            "pending_user_data") = false ->
  In (Select "subscriptions" column key (SelectRows [record]))
     (trace_of w req) ->
  truthy (get_prop (VObject record) "user_id") = false ->
  fails_with (outcome_of w req) "No user data found" /\
  Forall (fun e => is_datastore_write e = false /\ is_create_user e = false)
    (trace_of w req).
Proof.
  handler_runs w req; intros Hin Hv Hnamed Hnothing Hsel Hnobody;
    apply verified_payment_iff in Hv as (V1 & V2 & V3 & V4);
    this_event Hin; try congruence;
    this_event Hsel; try congruence.
  split; [failure_body | footprint].
Qed.

Lemma X8_witness :
  In (Fetch Sample.url Sample.authorization
        (FetchJson (Sample.verified VNull)))
     (trace_of Edge.no_user_data Sample.callback) /\
  verified_payment (Sample.verified VNull) /\
  nullish (get_prop (get_prop (Sample.verified VNull) "data") "customer")
  = false /\
  truthy (opt_member (get_prop (get_prop (Sample.verified VNull) "data")
                        "meta") "pending_user_data") = false /\
  In (Select "subscriptions" "flutterwave_tx_ref" (VString "ref-1")
        (SelectRows [Edge.pending_row]))
     (trace_of Edge.no_user_data Sample.callback) /\
  truthy (get_prop (VObject Edge.pending_row) "user_id") = false /\
  fails_with (outcome_of Edge.no_user_data Sample.callback)
    "No user data found" /\
  Forall (fun e => is_datastore_write e = false /\ is_create_user e = false)
    (trace_of Edge.no_user_data Sample.callback).
Proof.
  assert (Hin : In (Fetch Sample.url Sample.authorization
                      (FetchJson (Sample.verified VNull)))
                   (trace_of Edge.no_user_data Sample.callback))
    by in_sample_trace.
  assert (Hsel : In (Select "subscriptions" "flutterwave_tx_ref"
                       (VString "ref-1") (SelectRows [Edge.pending_row]))
                    (trace_of Edge.no_user_data Sample.callback))
    by in_sample_trace.
  assert (Hv : verified_payment (Sample.verified VNull))
    by (split; reflexivity).
  exact (conj Hin (conj Hv (conj eq_refl (conj eq_refl (conj Hsel
    (conj eq_refl
       (X8_no_user_data _ _ _ _ _ _ _ _ Hin Hv eq_refl eq_refl Hsel
          eq_refl))))))).
Defined.

(** X9.  When the call that creates the account does not yield the id of an
    account (it rejects, it reports an error, or its result has no
    [data.user]), the handler answers with the failure response with detail
    "Failed to create user account" and writes nothing to the datastore. *)
Theorem X9_account_not_created (w : World) (req : Request)
  (attributes : value) (o : create_user_outcome) :
  In (CreateUser attributes o) (trace_of w req) ->
  account_id o = None ->
  fails_with (outcome_of w req) "Failed to create user account" /\
  Forall (fun e => is_datastore_write e = false) (trace_of w req).
Proof.
  handler_runs w req; intros Hin Hnone; this_event Hin;
    unfold account_id in Hnone;
    try (rewrite Hno_data, Hno_user in Hnone; discriminate Hnone).
  all: split; [failure_body | footprint].
Qed.

Lemma X9_witness :
  In (CreateUser
        (account_attributes (VString "ada@example.com")
           (VString "correct horse") (VString "Ada"))
        Edge.refusing_account)
     (trace_of Edge.account_refused Sample.callback) /\
  account_id Edge.refusing_account = None /\
  fails_with (outcome_of Edge.account_refused Sample.callback)
    "Failed to create user account" /\
  Forall (fun e => is_datastore_write e = false)
    (trace_of Edge.account_refused Sample.callback).
Proof.
  assert (Hin : In (CreateUser
                      (account_attributes (VString "ada@example.com")
                         (VString "correct horse") (VString "Ada"))
                      Edge.refusing_account)
                   (trace_of Edge.account_refused Sample.callback))
    by in_sample_trace.
  exact (conj Hin (conj eq_refl
    (X9_account_not_created _ _ _ _ Hin eq_refl))).
Defined.



(** X11.  An account is created only for a verified payment whose
    subscription names no user, and with the attributes of the payment: the
    e-mail address and the name of its customer, the password of the pending
    user data of its metadata, and the address taken as confirmed. *)
Theorem X11_attributes_of_the_account (w : World) (req : Request)
  (attributes : value) (o : create_user_outcome) :
  In (CreateUser attributes o) (trace_of w req) ->
  exists url authorization answer column key record,
    In (Fetch url authorization (FetchJson answer)) (trace_of w req) /\
    verified_payment answer /\
    In (Select "subscriptions" column key (SelectRows [record]))
       (trace_of w req) /\
    truthy (get_prop (VObject record) "user_id") = false /\
    let payment := get_prop answer "data" in
    attributes =
    account_attributes
      (get_prop (get_prop payment "customer") "email")
      (get_prop (opt_member (get_prop payment "meta") "pending_user_data")
         "password")
      (get_prop (get_prop payment "customer") "name") /\
    get_prop attributes "email_confirm" = VBool true.
Proof.
  handler_runs w req; intros Hin; this_event Hin.
  all: do 6 eexists.
  all: split; [ right; left; reflexivity | ].
  all: split; [ apply verified_payment_iff; repeat split; assumption | ].
  all: split; [ do 3 right; left; reflexivity | ].
  all: split; [ assumption | ].
  all: split; reflexivity.
Qed.

Lemma X11_witness :
  In (CreateUser
        (account_attributes (VString "ada@example.com")
           (VString "correct horse") (VString "Ada"))
        Sample.new_account)
     (trace_of Sample.trial_signup Sample.callback) /\
  exists url authorization answer column key record,
    In (Fetch url authorization (FetchJson answer))
       (trace_of Sample.trial_signup Sample.callback) /\
    verified_payment answer /\
    In (Select "subscriptions" column key (SelectRows [record]))
       (trace_of Sample.trial_signup Sample.callback) /\
    truthy (get_prop (VObject record) "user_id") = false /\
    let payment := get_prop answer "data" in
    account_attributes (VString "ada@example.com")
      (VString "correct horse") (VString "Ada") =
    account_attributes
      (get_prop (get_prop payment "customer") "email")
      (get_prop (opt_member (get_prop payment "meta") "pending_user_data")
         "password")
      (get_prop (get_prop payment "customer") "name") /\
    get_prop (account_attributes (VString "ada@example.com")
                (VString "correct horse") (VString "Ada")) "email_confirm"
    = VBool true.
Proof.
  assert (Hin : In (CreateUser
                      (account_attributes (VString "ada@example.com")
                         (VString "correct horse") (VString "Ada"))
                      Sample.new_account)
                   (trace_of Sample.trial_signup Sample.callback))
    by in_sample_trace.
  exact (conj Hin (X11_attributes_of_the_account _ _ _ _ Hin)).
Defined.

(** X12.  The subscription that is updated is the one that was found: every
    update of [subscriptions] selects by the [id] of the row the lookup
    returned, sets the status 'active', the time of the first reading of the
    clock, and the id of the verified payment as text. *)
Theorem X12_the_subscription_found_is_activated (w : World) (req : Request)
  (patch : value) (column : string) (key : value)
  (o : option service_error) :
  In (Update "subscriptions" patch column key o) (trace_of w req) ->
  column = "id" /\
  get_prop patch "status" = VString "active" /\
  get_prop patch "updated_at" = VString (clock w 0) /\
  exists url authorization answer by_column reference record,
    In (Fetch url authorization (FetchJson answer)) (trace_of w req) /\
    verified_payment answer /\
    In (Select "subscriptions" by_column reference (SelectRows [record]))
       (trace_of w req) /\
    key = get_prop (VObject record) "id" /\
    opt_toString w (get_prop (get_prop answer "data") "id")
    = Returned (get_prop patch "flutterwave_subscription_id").
Proof.
  handler_runs w req; intros Hin; this_event Hin.
  all: split; [reflexivity|]. all: split; [reflexivity|].
  all: split; [reflexivity|].
  all: do 6 eexists.
  all: split; [ right; left; reflexivity | ].
  all: split; [ apply verified_payment_iff; repeat split; assumption | ].
  all: split; [ do 3 right; left; reflexivity | ].
  all: split; [ reflexivity | assumption ].
Qed.

Lemma X12_witness :
  In (Update "subscriptions"
        (subscription_patch (VString "user-1") (VString "4975363")
           Sample.stamp)
        "id" (VString "sub-1") None)
     (trace_of Sample.renewal Sample.callback) /\
  "id" = "id" /\
  get_prop (subscription_patch (VString "user-1") (VString "4975363")
              Sample.stamp) "status" = VString "active" /\
  get_prop (subscription_patch (VString "user-1") (VString "4975363")
              Sample.stamp) "updated_at"
  = VString (clock Sample.renewal 0) /\
  exists url authorization answer by_column reference record,
    In (Fetch url authorization (FetchJson answer))
       (trace_of Sample.renewal Sample.callback) /\
    verified_payment answer /\
    In (Select "subscriptions" by_column reference (SelectRows [record]))
       (trace_of Sample.renewal Sample.callback) /\
    VString "sub-1" = get_prop (VObject record) "id" /\
    opt_toString Sample.renewal (get_prop (get_prop answer "data") "id")
    = Returned
        (get_prop (subscription_patch (VString "user-1") (VString "4975363")
                     Sample.stamp) "flutterwave_subscription_id").
Proof.
  assert (Hin : In (Update "subscriptions"
                      (subscription_patch (VString "user-1")
                         (VString "4975363") Sample.stamp)
                      "id" (VString "sub-1") None)
                   (trace_of Sample.renewal Sample.callback))
    by in_sample_trace.
  exact (conj Hin (X12_the_subscription_found_is_activated _ _ _ _ _ _ Hin)).
Defined.

(** X13.  The transaction that is recorded is the one the gateway verified:
    every insert into [transactions] carries the amount, the currency, the
    payment type and the id (as text) of the verified payment, the e-mail
    address and the name of its customer, the reference of the request, and
    the status 'completed'. *)
Theorem X13_the_verified_payment_is_recorded (w : World) (req : Request)
  (record : value) (o : option service_error) :
  In (Insert "transactions" record o) (trace_of w req) ->
  exists url authorization answer,
    In (Fetch url authorization (FetchJson answer)) (trace_of w req) /\
    verified_payment answer /\
    let payment := get_prop answer "data" in
    get_prop record "amount" = get_prop payment "amount" /\
    get_prop record "currency" = get_prop payment "currency" /\
    get_prop record "payment_method" = get_prop payment "payment_type" /\
    opt_toString w (get_prop payment "id")
    = Returned (get_prop record "flutterwave_tx_id") /\
    get_prop record "customer_email"
    = get_prop (get_prop payment "customer") "email" /\
    get_prop record "customer_name"
    = get_prop (get_prop payment "customer") "name" /\
    get_prop record "flutterwave_tx_ref"
    = param_value (searchParams_get (query req) "tx_ref") /\
    get_prop record "status" = VString "completed".
Proof.
  handler_runs w req; intros Hin; this_event Hin.
  all: do 3 eexists.
  all: split; [ right; left; reflexivity | ].
  all: split; [ apply verified_payment_iff; repeat split; assumption | ].
  all: repeat split; first [ reflexivity | assumption ].
Qed.

Lemma X13_witness :
  In (Insert "transactions"
        (transaction_record (VString "ref-1")
           {| customerEmail := VString "ada@example.com";
              customerName := VString "Ada";
              planType := VString "professional";
              isTrial := false |}
           (VString "user-1") (VString "4975363") (VNumber 5000)
           (VString "NGN") (VString "card") (VNumber 0.03)) None)
     (trace_of Sample.renewal Sample.callback) /\
  exists url authorization answer,
    In (Fetch url authorization (FetchJson answer))
       (trace_of Sample.renewal Sample.callback) /\
    verified_payment answer /\
    let payment := get_prop answer "data" in
    let record :=
      transaction_record (VString "ref-1")
        {| customerEmail := VString "ada@example.com";
           customerName := VString "Ada";
           planType := VString "professional";
           isTrial := false |}
        (VString "user-1") (VString "4975363") (VNumber 5000)
        (VString "NGN") (VString "card") (VNumber 0.03) in
    get_prop record "amount" = get_prop payment "amount" /\
    get_prop record "currency" = get_prop payment "currency" /\
    get_prop record "payment_method" = get_prop payment "payment_type" /\
    opt_toString Sample.renewal (get_prop payment "id")
    = Returned (get_prop record "flutterwave_tx_id") /\
    get_prop record "customer_email"
    = get_prop (get_prop payment "customer") "email" /\
    get_prop record "customer_name"
    = get_prop (get_prop payment "customer") "name" /\
    get_prop record "flutterwave_tx_ref"
    = param_value (searchParams_get (query Sample.callback) "tx_ref") /\
    get_prop record "status" = VString "completed".
Proof.
  assert (Hin : In (Insert "transactions"
                      (transaction_record (VString "ref-1")
                         {| customerEmail := VString "ada@example.com";
                            customerName := VString "Ada";
                            planType := VString "professional";
                            isTrial := false |}
                         (VString "user-1") (VString "4975363")
                         (VNumber 5000) (VString "NGN") (VString "card")
                         (VNumber 0.03)) None)
                   (trace_of Sample.renewal Sample.callback))
    by in_sample_trace.
  exact (conj Hin (X13_the_verified_payment_is_recorded _ _ _ _ Hin)).
Defined.

(** X14.  The notification names the subscription found and the user of
    the other writes, has the type 'payment' and the title 'Subscription
    Activated', and words its message by the trial flag of the payment: the
    start of a trial of 7 days when [meta.is_trial] is [true], and an active
    subscription otherwise. *)
Theorem X14_the_notification (w : World) (req : Request)
  (record : value) (o : option service_error) :
  In (Insert "notifications" record o) (trace_of w req) ->
  get_prop record "type" = VString "payment" /\
  get_prop record "title" = VString "Subscription Activated" /\
  exists url authorization answer column key row plan,
    In (Fetch url authorization (FetchJson answer)) (trace_of w req) /\
    In (Select "subscriptions" column key (SelectRows [row]))
       (trace_of w req) /\
    get_prop (get_prop record "metadata") "subscription_id"
    = get_prop (VObject row) "id" /\
    get_prop (get_prop record "metadata") "is_trial"
    = VBool (trial_flag (get_prop answer "data")) /\
    get_prop record "message" =
    VString
      (if trial_flag (get_prop answer "data")
       then "Your " ++ plan
            ++ " plan trial has started! You have 7 days to try all features."
       else "Your " ++ plan
            ++ " plan subscription is now active. Welcome to PayLockr!").
Proof.
  handler_runs w req; intros Hin; this_event Hin.
  all: split; [reflexivity|]. all: split; [reflexivity|].
  all: do 7 eexists.
  all: split; [ right; left; reflexivity | ].
  all: split; [ do 3 right; left; reflexivity | ].
  all: split; [reflexivity|]. all: split; [reflexivity|].
  all: unfold notification_record; destruct (trial_flag _); reflexivity.
Qed.

Lemma X14_witness :
  In (Insert "notifications"
        (notification_record
           {| customerEmail := VString "ada@example.com";
              customerName := VString "Ada";
              planType := VString "starter";
              isTrial := true |}
           (VString "user-9")
           "Your starter plan trial has started! You have 7 days to try all features."
           (VString "sub-1")) None)
     (trace_of Sample.trial_signup Sample.callback) /\
  let record :=
    notification_record
      {| customerEmail := VString "ada@example.com";
         customerName := VString "Ada";
         planType := VString "starter";
         isTrial := true |}
      (VString "user-9")
      "Your starter plan trial has started! You have 7 days to try all features."
      (VString "sub-1") in
  get_prop record "type" = VString "payment" /\
  get_prop record "title" = VString "Subscription Activated" /\
  exists url authorization answer column key row plan,
    In (Fetch url authorization (FetchJson answer))
       (trace_of Sample.trial_signup Sample.callback) /\
    In (Select "subscriptions" column key (SelectRows [row]))
       (trace_of Sample.trial_signup Sample.callback) /\
    get_prop (get_prop record "metadata") "subscription_id"
    = get_prop (VObject row) "id" /\
    get_prop (get_prop record "metadata") "is_trial"
    = VBool (trial_flag (get_prop answer "data")) /\
    get_prop record "message" =
    VString
      (if trial_flag (get_prop answer "data")
       then "Your " ++ plan
            ++ " plan trial has started! You have 7 days to try all features."
       else "Your " ++ plan
            ++ " plan subscription is now active. Welcome to PayLockr!").
Proof.
  assert (Hin : In (Insert "notifications"
                      (notification_record
                         {| customerEmail := VString "ada@example.com";
                            customerName := VString "Ada";
                            planType := VString "starter";
                            isTrial := true |}
                         (VString "user-9")
                         "Your starter plan trial has started! You have 7 days to try all features."
                         (VString "sub-1")) None)
                   (trace_of Sample.trial_signup Sample.callback))
    by in_sample_trace.
  exact (conj Hin (X14_the_notification _ _ _ _ Hin)).
Defined.

(** X15.  The invocation writes to the datastore or creates an account
    only after the gateway has answered with a verified payment that names
    a customer, and the lookup has found exactly one subscription. *)
Theorem X15_writes_need_a_verified_payment (w : World) (req : Request)
  (e : event) :
  In e (trace_of w req) ->
  is_datastore_write e || is_create_user e = true ->
  exists url authorization answer column key record,
    In (Fetch url authorization (FetchJson answer)) (trace_of w req) /\
    verified_payment answer /\
    nullish (get_prop (get_prop answer "data") "customer") = false /\
    In (Select "subscriptions" column key (SelectRows [record]))
       (trace_of w req).
Proof.
  handler_runs w req; intros Hin Hw; locate_write Hin Hw.
  all: do 6 eexists.
  all: split; [ right; left; reflexivity | ].
  all: split; [ apply verified_payment_iff; repeat split; assumption | ].
  all: split; [ assumption | do 3 right; left; reflexivity ].
Qed.

Lemma X15_witness :
  In (Insert "notifications"
        (notification_record
           {| customerEmail := VString "ada@example.com";
              customerName := VString "Ada";
              planType := VString "starter";
              isTrial := true |}
           (VString "user-9")
           "Your starter plan trial has started! You have 7 days to try all features."
           (VString "sub-1")) None)
     (trace_of Sample.trial_signup Sample.callback) /\
  exists url authorization answer column key record,
    In (Fetch url authorization (FetchJson answer))
       (trace_of Sample.trial_signup Sample.callback) /\
    verified_payment answer /\
    nullish (get_prop (get_prop answer "data") "customer") = false /\
    In (Select "subscriptions" column key (SelectRows [record]))
       (trace_of Sample.trial_signup Sample.callback).
Proof.
  assert (Hin : In (Insert "notifications"
                      (notification_record
                         {| customerEmail := VString "ada@example.com";
                            customerName := VString "Ada";
                            planType := VString "starter";
                            isTrial := true |}
                         (VString "user-9")
                         "Your starter plan trial has started! You have 7 days to try all features."
                         (VString "sub-1")) None)
                   (trace_of Sample.trial_signup Sample.callback))
    by in_sample_trace.
  exact (conj Hin
    (X15_writes_need_a_verified_payment _ _ _ Hin eq_refl)).
Defined.

(** X16.  The calls of an invocation are made in one order and each at most
    once: the gateway, the lookup of the subscription, the creation of the
    account (only when the subscription names no user), the update of the
    subscription, the update of the profile, the transaction and the
    notification.  An invocation that fails stops somewhere on the way. *)
Theorem X16_order_of_the_calls (w : World) (req : Request) :
  is_prefix (calls (trace_of w req)) calls_for_known_user \/
  is_prefix (calls (trace_of w req)) calls_for_new_user.
Proof.
  handler_runs w req;
    cbn [error_log];
    repeat match goal with
           | |- context [error_log _ ?o] => destruct o; cbn [error_log]
           end;
    cbv beta iota delta [calls filter map is_external_call call_name app
                         error_log String.append];
    first [ left; eexists; reflexivity | right; eexists; reflexivity ].
Qed.

(** X17.  The [status] parameter of the request decides nothing: two
    requests with the same method, reference and transaction id get the same
    response after the same calls, whatever status each reports. *)
Theorem X17_status_parameter_is_ignored (w : World) (req req' : Request) :
  method req = method req' ->
  searchParams_get (query req) "tx_ref"
  = searchParams_get (query req') "tx_ref" ->
  searchParams_get (query req) "transaction_id"
  = searchParams_get (query req') "transaction_id" ->
  outcome_of w req = outcome_of w req' /\
  filter is_external_call (trace_of w req)
  = filter is_external_call (trace_of w req').
Proof.
  intros Hmethod Hreference Hid.
  cut (same_run (handler w req) (handler w req')).
  { intros [Ht Hr]. split; assumption. }
  unfold handler, try_block. rewrite Hmethod, Hreference, Hid.
  destruct (method req' =? "OPTIONS"); [apply same_run_refl|].
  destruct (negb (method req' =? "GET")); [apply same_run_refl|].
  apply same_run_try_catch, same_run_bind_k. intros _.
  apply same_run_bind. split; reflexivity.
Qed.

Lemma X17_witness :
  method (Edge.callback_reporting "cancelled") = method Sample.callback /\
  searchParams_get (query (Edge.callback_reporting "cancelled")) "tx_ref"
  = searchParams_get (query Sample.callback) "tx_ref" /\
  searchParams_get (query (Edge.callback_reporting "cancelled"))
    "transaction_id"
  = searchParams_get (query Sample.callback) "transaction_id" /\
  outcome_of Sample.renewal (Edge.callback_reporting "cancelled")
  = outcome_of Sample.renewal Sample.callback /\
  filter is_external_call
    (trace_of Sample.renewal (Edge.callback_reporting "cancelled"))
  = filter is_external_call (trace_of Sample.renewal Sample.callback).
Proof.
  exact (conj eq_refl (conj eq_refl (conj eq_refl
    (X17_status_parameter_is_ignored Sample.renewal
       (Edge.callback_reporting "cancelled") Sample.callback
       eq_refl eq_refl eq_refl)))).
Defined.

(** X18.  Success is reported only after the activation: a response whose
    body has [success: true] comes after an answer of the gateway that
    reports a verified payment, and after an update of the subscription that
    set the status 'active' and reported no error. *)
Theorem X18_success_only_after_activation (w : World) (req : Request)
  (resp : Response) :
  outcome_of w req = Returned resp ->
  body_member resp "success" = VBool true ->
  exists url authorization answer patch key,
    In (Fetch url authorization (FetchJson answer)) (trace_of w req) /\
    verified_payment answer /\
    In (Update "subscriptions" patch "id" key None) (trace_of w req) /\
    get_prop patch "status" = VString "active".
Proof.
  handler_runs w req; intros Hout Hsuccess;
    injection Hout as <-; try discriminate Hsuccess.
  all: do 5 eexists.
  all: split; [ right; left; reflexivity | ].
  all: split; [ apply verified_payment_iff; repeat split; assumption | ].
  all: split;
    [ first [ do 6 right; left; reflexivity | do 8 right; left; reflexivity ]
    | reflexivity ].
Qed.

Lemma X18_witness :
  outcome_of Sample.renewal Sample.callback
  = Returned (success_response (VString "sub-1") (VString "user-1")
                (VString "professional") false) /\
  body_member (success_response (VString "sub-1") (VString "user-1")
                 (VString "professional") false) "success" = VBool true /\
  exists url authorization answer patch key,
    In (Fetch url authorization (FetchJson answer))
       (trace_of Sample.renewal Sample.callback) /\
    verified_payment answer /\
    In (Update "subscriptions" patch "id" key None)
       (trace_of Sample.renewal Sample.callback) /\
    get_prop patch "status" = VString "active".
Proof.
  exact (conj eq_refl (conj eq_refl
    (X18_success_only_after_activation Sample.renewal Sample.callback _
       eq_refl eq_refl))).
Defined.

(** X19.  Every failure is logged: when the response has status 500, the
    last event of the invocation is the line "Subscription verification
    error:" on the error console with the error that was caught, and the
    [details] of the response are the message of that error. *)
Theorem X19_failure_is_logged (w : World) (req : Request) (resp : Response) :
  outcome_of w req = Returned resp ->
  status resp = 500 ->
  exists error,
    ends_with (trace_of w req)
      (ConsoleError "Subscription verification error:" [LogError error]) /\
    body_member resp "details" = VString (message error).
Proof.
  handler_runs w req; intros Hout Hstatus;
    injection Hout as <-; try discriminate Hstatus.
  all: eexists; split; [ at_the_end | reflexivity ].
Qed.

Lemma X19_witness :
  outcome_of Sample.unknown_transaction Sample.callback
  = Returned (failure_response (Error_ "Payment verification failed")) /\
  status (failure_response (Error_ "Payment verification failed")) = 500 /\
  exists error,
    ends_with (trace_of Sample.unknown_transaction Sample.callback)
      (ConsoleError "Subscription verification error:" [LogError error]) /\
    body_member (failure_response (Error_ "Payment verification failed"))
      "details" = VString (message error).
Proof.
  exact (conj eq_refl (conj eq_refl
    (X19_failure_is_logged Sample.unknown_transaction Sample.callback _
       eq_refl eq_refl))).
Defined.



(** X21.  The status 405 is the answer to the methods other than GET and
    OPTIONS, and to no other request; such an invocation logs nothing and
    calls nothing. *)
Theorem X21_method_not_allowed (w : World) (req : Request) :
  (exists resp, outcome_of w req = Returned resp /\ status resp = 405) <->
  (method req <> "OPTIONS" /\ method req <> "GET").
Proof.
  split.
  - handler_runs w req; intros (resp & Hout & Hstatus);
      injection Hout as <-; try discriminate Hstatus.
    split; now apply String.eqb_neq.
  - intros [Hoptions Hget]. unfold outcome_of, handler.
    apply String.eqb_neq in Hoptions, Hget. rewrite Hoptions, Hget.
    eexists. split; reflexivity.
Qed.

(** X22.  A missing secret key does not stop the invocation: when the
    environment has no [FLUTTERWAVE_SECRET_KEY], a GET request with a
    reference, for which the client of the datastore is made, still calls
    the gateway, and every call to the gateway carries the header "Bearer
    undefined". *)
Theorem X22_missing_secret_key (w : World) (req : Request)
  (reference : string) :
  FLUTTERWAVE_SECRET_KEY w = None ->
  method req = "GET" ->
  searchParams_get (query req) "tx_ref" = Some reference ->
  reference <> "" ->
  client_error w = None ->
  (exists url o, In (Fetch url "Bearer undefined" o) (trace_of w req)) /\
  forall url authorization o,
    In (Fetch url authorization o) (trace_of w req) ->
    authorization = "Bearer undefined".
Proof.
  handler_runs w req; intros Hkey Hmethod Hreference Hne Hmade.
  all: try (rewrite Hmethod in *; discriminate).
  all: try (rewrite Hreference in Href; simpl in Href;
            destruct (String.eqb_spec reference ""); [contradiction|];
            discriminate Href).
  all: try congruence.
  all: unfold authorization_header; rewrite Hkey;
    change (primitive_text w (env_value None)) with "undefined";
    change ("Bearer " ++ "undefined") with "Bearer undefined".
  all: split; [ do 2 eexists; right; left; reflexivity | ].
  all: intros url authorization o Hin; this_event Hin; reflexivity.
Qed.

Lemma X22_witness :
  FLUTTERWAVE_SECRET_KEY Edge.without_secret = None /\
  method Sample.callback = "GET" /\
  searchParams_get (query Sample.callback) "tx_ref" = Some "ref-1" /\
  "ref-1" <> "" /\
  client_error Edge.without_secret = None /\
  (exists url o,
     In (Fetch url "Bearer undefined" o)
        (trace_of Edge.without_secret Sample.callback)) /\
  forall url authorization o,
    In (Fetch url authorization o)
       (trace_of Edge.without_secret Sample.callback) ->
    authorization = "Bearer undefined".
Proof.
  assert (Hne : "ref-1" <> "") by discriminate.
  exact (conj eq_refl (conj eq_refl (conj eq_refl (conj Hne (conj eq_refl
    (X22_missing_secret_key Edge.without_secret Sample.callback "ref-1"
       eq_refl eq_refl eq_refl Hne eq_refl)))))).
Defined.

(** X23.  The only read of the datastore is the lookup of the subscription
    by the reference of the request: every select is on [subscriptions], by
    the column [flutterwave_tx_ref], for the value of the [tx_ref]
    parameter. *)
Theorem X23_lookup_by_reference (w : World) (req : Request)
  (table column : string) (key : value) (o : select_outcome) :
  In (Select table column key o) (trace_of w req) ->
  table = "subscriptions" /\ column = "flutterwave_tx_ref" /\
  exists reference,
    searchParams_get (query req) "tx_ref" = Some reference /\
    key = VString reference.
Proof.
  handler_runs w req; intros Hin; this_event Hin.
  all: split; [reflexivity|]; split; [reflexivity|].
  all: destruct (truthy_param _ Href) as (reference & Hreference & _).
  all: exists reference; rewrite Hreference; split; reflexivity.
Qed.

Lemma X23_witness :
  In (Select "subscriptions" "flutterwave_tx_ref" (VString "ref-1")
        (SelectRows []))
     (trace_of Sample.no_subscription Sample.callback) /\
  "subscriptions" = "subscriptions" /\
  "flutterwave_tx_ref" = "flutterwave_tx_ref" /\
  exists reference,
    searchParams_get (query Sample.callback) "tx_ref" = Some reference /\
    VString "ref-1" = VString reference.
Proof.
  assert (Hin : In (Select "subscriptions" "flutterwave_tx_ref"
                      (VString "ref-1") (SelectRows []))
                   (trace_of Sample.no_subscription Sample.callback))
    by in_sample_trace.
  exact (conj Hin (X23_lookup_by_reference _ _ _ _ _ _ Hin)).
Defined.

(** X24.  The fee rate of a plan whose name [Object.prototype] does not
    hold: 0.03 for "professional", 0.01 for "enterprise", and 0.05 for
    "starter" and for every other such name. *)
Theorem X24_fee_rate_of_an_ordinary_name (planType : string) :
  ~ In planType object_prototype_members ->
  getPlanFeeRate planType =
  VNumber (if planType =? "professional" then 0.03
           else if planType =? "enterprise" then 0.01 else 0.05).
Proof.
  intro Hordinary.
  destruct (getPlanFeeRate_table planType) as (Hs & Hp & He & Hother).
  destruct (String.eqb_spec planType "professional") as [-> | Np];
    [exact Hp|].
  destruct (String.eqb_spec planType "enterprise") as [-> | Ne];
    [exact He|].
  destruct (String.eqb_spec planType "starter") as [-> | Ns];
    [exact Hs|].
  now apply Hother.
Qed.

Lemma X24_witness :
  ~ In "gold" object_prototype_members /\
  getPlanFeeRate "gold" =
  VNumber (if "gold" =? "professional" then 0.03
           else if "gold" =? "enterprise" then 0.01 else 0.05).
Proof.
  assert (Hordinary : ~ In "gold" object_prototype_members).
  { intros H. simpl in H.
    repeat (destruct H as [H|H]; [discriminate H|]). exact H. }
  exact (conj Hordinary (X24_fee_rate_of_an_ordinary_name "gold" Hordinary)).
Defined.
